(** * BTK management system: the DataManager cache and the Router

    A shallow embedding of [script.js]: the [DataManager] class (cache-aside
    access to named JSON documents with a fetch fallback and hard-coded
    defaults), the [Router] class (named view modules and the current-view
    pointer), [DashboardModule.refresh] and the three form handlers that
    guard on a title.

    JavaScript objects used as maps ([this.cache], [this.modules], the
    [defaults] literal) are modelled with their own properties in a [gmap]
    and with the prototype they resolve missing keys through, because the
    source indexes them with caller-supplied strings ([obj[name]]).

    Each call runs to completion: code interleaved at an [await] is not
    modelled.  The remote, the storage quota, the clock and the random
    source are inputs of a call ([Env]); what the modules draw is reduced
    to events. *)

From Stdlib Require Import ZArith Uint63 PrimFloat Ascii String List Bool.
From stdpp Require Import base option list gmap strings.

Local Open Scope string_scope.
#[local] Set Warnings "-register-all".

(** ** JSON documents *)

(** A document is a JSON value; numbers are IEEE doubles as in JavaScript,
    objects keep their fields in insertion order. *)
Inductive value : Type :=
  | VNull
  | VBool (b : bool)
  | VNum (n : float)
  | VStr (s : string)
  | VArr (items : list value)
  | VObj (fields : list (string * value)).

(** JavaScript truthiness ([ToBoolean]) on documents: [null], [false],
    [+0], [-0], [NaN] and the empty string are falsy, every object and
    array is truthy. *)
Definition truthy (v : value) : bool :=
  match v with
  | VNull => false
  | VBool b => b
  | VNum n => negb (PrimFloat.eqb n 0%float || negb (PrimFloat.eqb n n))
  | VStr s => negb (String.eqb s "")
  | VArr _ => true
  | VObj _ => true
  end.

(** What the [__proto__] setter distinguishes in the value assigned. *)
Inductive kind : Type := KObject | KNull | KPrimitive.

Definition kind_of (v : value) : kind :=
  match v with
  | VNull => KNull
  | VArr _ | VObj _ => KObject
  | VBool _ | VNum _ | VStr _ => KPrimitive
  end.

(** Exceptions the modelled code can raise. *)
Inductive error : Type :=
  | TypeError (message : string)
  | QuotaExceededError.

(** How a call ends: with a value, or by throwing (for an [async] method:
    the promise is fulfilled, or rejected). *)
Inductive completion (A : Type) : Type :=
  | Returns (a : A)
  | Throws (e : error).
Arguments Returns {A} a.
Arguments Throws {A} e.

(** ** Objects used as maps *)

Section JSObject.
Context {A : Type}.

(** The prototype of an object: [Object.prototype] for a literal [{}],
    [null] or a value after an assignment to [__proto__]. *)
Inductive proto : Type :=
  | ObjectPrototype
  | NullPrototype
  | ValuePrototype (p : A).

Record jsobj : Type := JSObj {
  own : gmap string A;
  prototype : proto
}.

(** What a key resolves to along a prototype chain: a stored value, a
    built-in function or host object (always truthy; a falsy foreign
    value is indistinguishable from [Absent] for the code modelled here),
    the [__proto__] accessor of [Object.prototype], or nothing. *)
Inductive prop : Type :=
  | Data (a : A)
  | Builtin (f : string)
  | ProtoAccessor
  | Absent.

(** The result of evaluating [obj[key]]. *)
Inductive jsval : Type :=
  | JUndefined
  | JBuiltin (f : string)
  | JVal (a : A).

(** [kind_of_A] classifies the value assigned through the [__proto__]
    setter; [inherited_from p k] is the engine's resolution of [k] along
    the chain that starts at a value [p] installed as a prototype. *)
Variable kind_of_A : A -> kind.
Variable inherited_from : A -> string -> prop.

(** The function-valued properties every object inherits from
    [Object.prototype]. *)
Definition Object_prototype_functions : list string :=
  [ "constructor"; "hasOwnProperty"; "isPrototypeOf";
    "propertyIsEnumerable"; "toLocaleString"; "toString"; "valueOf";
    "__defineGetter__"; "__defineSetter__";
    "__lookupGetter__"; "__lookupSetter__" ].

Definition Object_prototype (k : string) : prop :=
  if String.eqb k "__proto__" then ProtoAccessor
  else if bool_decide (k ∈ Object_prototype_functions) then Builtin k
  else Absent.

(** [{}] *)
Definition empty_object : jsobj := JSObj ∅ ObjectPrototype.

(** An object literal [{ k1: v1, ... }] with distinct plain keys. *)
Definition object_literal (fields : list (string * A)) : jsobj :=
  JSObj (list_to_map fields) ObjectPrototype.

(** Resolution of [k] on [o]: own properties first, then the chain. *)
Definition find (o : jsobj) (k : string) : prop :=
  match own o !! k with
  | Some a => Data a
  | None =>
      match prototype o with
      | ObjectPrototype => Object_prototype k
      | NullPrototype => Absent
      | ValuePrototype p => inherited_from p k
      end
  end.

(** The value the [__proto__] getter returns for [o].  (With a [null]
    prototype no accessor is inherited, so that case is never asked.) *)
Definition prototype_value (o : jsobj) : jsval :=
  match prototype o with
  | ObjectPrototype => JBuiltin "Object.prototype"
  | NullPrototype => JUndefined
  | ValuePrototype p => JVal p
  end.

(** [o[k]] *)
Definition js_get (o : jsobj) (k : string) : jsval :=
  match find o k with
  | Data a => JVal a
  | Builtin f => JBuiltin f
  | ProtoAccessor => prototype_value o
  | Absent => JUndefined
  end.

(** [o[k] = v]: an ordinary key becomes (or updates) an own property;
    a key that resolves to the [__proto__] accessor runs its setter, which
    replaces the prototype when [v] is an object or [null] and ignores
    every other value. *)
Definition js_set (o : jsobj) (k : string) (v : A) : jsobj :=
  match find o k with
  | ProtoAccessor =>
      match kind_of_A v with
      | KObject => JSObj (own o) (ValuePrototype v)
      | KNull => JSObj (own o) NullPrototype
      | KPrimitive => o
      end
  | Data _ | Builtin _ | Absent => JSObj (<[k := v]> (own o)) (prototype o)
  end.

(** A key is ordinary on [o] when it does not resolve to the accessor. *)
Definition ordinary (o : jsobj) (k : string) : bool :=
  match find o k with
  | ProtoAccessor => false
  | _ => true
  end.

End JSObject.

Arguments proto : clear implicits.
Arguments jsobj : clear implicits.
Arguments prop : clear implicits.
Arguments jsval : clear implicits.

(** Truthiness of the result of a property read: [undefined] is falsy,
    functions and host objects are truthy. *)
Definition truthy_js (r : jsval value) : bool :=
  match r with
  | JUndefined => false
  | JBuiltin _ => true
  | JVal v => truthy v
  end.

(** ** Environment *)

(** What [fetch(url)] followed by [response.json()] can do: [fetch]
    rejects, or it resolves to a response with its [ok] flag whose body
    parses to a document ([Some]) or fails to parse ([None]). *)
Inductive fetch_outcome : Type :=
  | NetworkError
  | Response (ok : bool) (json : option value).

(** [load] takes its [catch] branch unless the response is [ok] and its
    body parses. *)
Definition fetch_failed (o : fetch_outcome) : bool :=
  match o with
  | Response true (Some _) => false
  | _ => true
  end.

(** The outside world as one call sees it: the remote, whether
    [localStorage.setItem] accepts a write (it throws [QuotaExceededError]
    otherwise), the clock and the random source. *)
Record Env : Type := {
  fetch : string -> fetch_outcome;
  storage_accepts : string -> string -> bool;
  Date_now : string;
  Math_random_toString36 : string;
  Date_toISOString : string
}.

(** Functions of the JavaScript engine that the model takes as given. *)
Record Engine : Type := {
  inherited_from : value -> string -> prop value;
  JSON_stringify : value -> string
}.

(** ** State *)

Record DataManager : Type := {
  cache : jsobj value;
  baseUrl : string
}.

(** Calls made on the document store and what the user is shown, logged
    in order (instrumentation, not program state). *)
Inductive store_call : Type :=
  | CallLoad (fileName : string)
  | CallSave (fileName : string) (data : value).

Inductive ui_event : Type :=
  | Alert (message : string)
  | Toast (message : string)
  | ShowList (fileName : string) (data : jsval value)
  | DashboardLoading
  | ShowDashboard (documents : list (jsval value)).

(** The store object, local storage, the URLs passed to [fetch] in order,
    the first argument of each [console.error] and [console.log], and the
    two logs above. *)
Record World : Type := {
  dm : DataManager;
  localStorage : gmap string string;
  requests : list string;
  console : list string;
  calls : list store_call;
  ui : list ui_event
}.

(** [new DataManager()] *)
Definition new_DataManager : DataManager :=
  {| cache := empty_object; baseUrl := "data/" |}.

(** The page right after the script's initialisation of the store. *)
Definition initial_world : World :=
  {| dm := new_DataManager; localStorage := ∅; requests := [];
     console := []; calls := []; ui := [] |}.

Definition with_cache (c : jsobj value) (w : World) : World :=
  {| dm := {| cache := c; baseUrl := baseUrl (dm w) |};
     localStorage := localStorage w; requests := requests w;
     console := console w; calls := calls w; ui := ui w |}.

Definition with_localStorage (s : gmap string string) (w : World) : World :=
  {| dm := dm w; localStorage := s; requests := requests w;
     console := console w; calls := calls w; ui := ui w |}.

Definition log_request (url : string) (w : World) : World :=
  {| dm := dm w; localStorage := localStorage w;
     requests := requests w ++ [url];
     console := console w; calls := calls w; ui := ui w |}.

Definition log_console (line : string) (w : World) : World :=
  {| dm := dm w; localStorage := localStorage w; requests := requests w;
     console := console w ++ [line]; calls := calls w; ui := ui w |}.

Definition log_call (c : store_call) (w : World) : World :=
  {| dm := dm w; localStorage := localStorage w; requests := requests w;
     console := console w; calls := calls w ++ [c]; ui := ui w |}.

Definition log_ui (e : ui_event) (w : World) : World :=
  {| dm := dm w; localStorage := localStorage w; requests := requests w;
     console := console w; calls := calls w; ui := ui w ++ [e] |}.

(** ** DataManager *)

Section Store.

Variable engine : Engine.

(** [this.cache[fileName]] and [this.cache[fileName] = data] *)
Definition cache_get (w : World) (fileName : string) : jsval value :=
  js_get (inherited_from engine) (cache (dm w)) fileName.

Definition cache_set (fileName : string) (data : value) (w : World) : World :=
  with_cache (js_set kind_of (inherited_from engine) (cache (dm w)) fileName data) w.

(** The [defaults] literal of [getDefaultData]. *)
Definition default_shapes : list (string * value) :=
  [ ("dashboard.json",
      VObj [ ("tasks", VArr []); ("reviews", VArr []);
             ("writingProgress", VObj []); ("knowledgeSummary", VObj []) ]);
    ("documents.json", VObj [ ("documents", VArr []) ]);
    ("knowledge.json", VObj [ ("items", VArr []) ]);
    ("writing_projects.json", VObj [ ("projects", VArr []) ]);
    ("tasks.json",
      VObj [ ("tasks", VArr []); ("reviews", VArr []); ("metrics", VObj []) ]) ].

Definition defaults : jsobj value := object_literal default_shapes.

(** [return defaults[fileName] || {};] *)
Definition getDefaultData (fileName : string) : jsval value :=
  let d := js_get (inherited_from engine) defaults fileName in
  if truthy_js d then d else JVal (VObj []).

(** [async load(fileName)].  The call is taken to run to completion, with
    no other code interleaved at its [await]s. *)
Definition load (env : Env) (fileName : string) (w : World)
  : completion (jsval value) * World :=
  let w := log_call (CallLoad fileName) w in
  if truthy_js (cache_get w fileName) then
    (Returns (cache_get w fileName), w)
  else
    let url := baseUrl (dm w) +:+ fileName in
    let w := log_request url w in
    match fetch env url with
    | Response true (Some data) =>
        (Returns (JVal data), cache_set fileName data w)
    | NetworkError | Response _ _ =>
        (Returns (getDefaultData fileName),
         log_console ("Error loading " +:+ fileName +:+ ":") w)
    end.

(** [async save(fileName, data)].  [setItem] throwing leaves the promise
    rejected after the cache has been written. *)
Definition save (env : Env) (fileName : string) (data : value) (w : World)
  : completion bool * World :=
  let w := log_call (CallSave fileName data) w in
  let w := cache_set fileName data w in
  let key := "btk_" +:+ fileName in
  let text := JSON_stringify engine data in
  if storage_accepts env key text then
    (Returns true,
     log_console ("[BTK] Data saved: " +:+ fileName)
       (with_localStorage (<[key := text]> (localStorage w)) w))
  else
    (Throws QuotaExceededError, w).

(** [this.dm.cache = {}], the cache clear of [DashboardModule.refresh]. *)
Definition clearCache (w : World) : World := with_cache empty_object w.

(** [generateId()], [formatDate()] and [formatDateTime()] at the current
    instant. *)
Fixpoint before (c : Ascii.ascii) (s : string) : string :=
  match s with
  | EmptyString => EmptyString
  | String a rest => if Ascii.eqb a c then EmptyString else String a (before c rest)
  end.

Fixpoint replace_first (c d : Ascii.ascii) (s : string) : string :=
  match s with
  | EmptyString => EmptyString
  | String a rest =>
      if Ascii.eqb a c then String d rest else String a (replace_first c d rest)
  end.

Definition generateId (env : Env) : string :=
  Date_now env +:+ "_" +:+ String.substring 2 9 (Math_random_toString36 env).

Definition formatDate (env : Env) : string :=
  before "T"%char (Date_toISOString env).

Definition formatDateTime (env : Env) : string :=
  before "."%char (replace_first "T"%char " "%char (Date_toISOString env)).

End Store.


(** ** Router *)

Section Router.

(** View modules are objects with a [render()] method; [module_chain p k]
    is the engine's resolution of [k] along the chain of a module [p]
    installed as a prototype, and [render m html] is what the call
    [m.render()] has done to [app.innerHTML] when it returns to
    [navigate]. *)
Variable M : Type.
Variable module_chain : M -> string -> prop M.
Variable render : M -> string -> string.

Record Router : Type := {
  currentView : option string;
  modules : jsobj M;
  app_innerHTML : string;
  rendered : list M
}.

(** [new Router(app)] on a page whose [#app] element holds [html]; the
    click listeners of [setupNavigation] call [navigate] with the button's
    [data-view]. *)
Definition new_Router (html : string) : Router :=
  {| currentView := None; modules := empty_object;
     app_innerHTML := html; rendered := [] |}.

Definition registerModule (name : string) (module : M) (r : Router) : Router :=
  {| currentView := currentView r;
     modules := js_set (fun _ => KObject) module_chain (modules r) name module;
     app_innerHTML := app_innerHTML r; rendered := rendered r |}.

Definition dq : string := String (Ascii.ascii_of_nat 34) EmptyString.

Definition div_open (class : string) : string :=
  "<div class=" +:+ dq +:+ class +:+ dq +:+ ">".

(** The markup [navigate] writes when no module is found. *)
Definition module_not_found : string :=
  div_open "empty-state" +:+ "
        " +:+ div_open "empty-state-icon" +:+ "⚠️</div>
        " +:+ div_open "empty-state-title" +:+ "מודול לא נמצא</div>
      </div>".

(** [navigate(viewName)].  A module object is truthy and has [render]; a
    function or host object found through the prototype chain is truthy
    and has no [render], so calling it throws. *)
Definition navigate (viewName : string) (r : Router) : completion unit * Router :=
  let r := {| currentView := Some viewName; modules := modules r;
              app_innerHTML := app_innerHTML r; rendered := rendered r |} in
  match js_get module_chain (modules r) viewName with
  | JVal module =>
      (Returns tt,
       {| currentView := currentView r; modules := modules r;
          app_innerHTML := render module (app_innerHTML r);
          rendered := rendered r ++ [module] |})
  | JBuiltin _ =>
      (Throws (TypeError "module.render is not a function"), r)
  | JUndefined =>
      (Returns tt,
       {| currentView := currentView r; modules := modules r;
          app_innerHTML := module_not_found; rendered := rendered r |})
  end.

(** A name is registered to [module] when [this.modules[name]] is that
    module. *)
Definition registered (r : Router) (name : string) (module : M) : Prop :=
  js_get module_chain (modules r) name = JVal module.

End Router.

Arguments currentView {M} r.
Arguments modules {M} r.
Arguments app_innerHTML {M} r.
Arguments rendered {M} r.
Arguments new_Router {M} html.

(** The five modules of the application and their registration, as at the
    end of the script. *)
Inductive AppModule : Type :=
  | dashboard | docLibrary | knowledgeEnv | writingStudio | management.

(** Members every module instance resolves: its fields [app] and [dm], the
    methods all five classes define, then [Object.prototype]. *)
Definition AppModule_chain (m : AppModule) (k : string) : prop AppModule :=
  if bool_decide (k ∈ ["app"; "dm"; "render"; "showToast"]) then Builtin k
  else Object_prototype k.

Definition app_router (render : AppModule -> string -> string) (html : string)
  : Router AppModule :=
  registerModule AppModule AppModule_chain "management" management
    (registerModule AppModule AppModule_chain "writing" writingStudio
      (registerModule AppModule AppModule_chain "knowledge" knowledgeEnv
        (registerModule AppModule AppModule_chain "docs" docLibrary
          (registerModule AppModule AppModule_chain "dashboard" dashboard
            (new_Router html))))).


(** ** Documents edited in place by the form handlers *)

Fixpoint lookup_field (k : string) (fields : list (string * value)) : option value :=
  match fields with
  | [] => None
  | (k', v) :: rest => if String.eqb k' k then Some v else lookup_field k rest
  end.

(** [obj.k = v] on the fields of a plain object: the property keeps its
    place when it exists and is appended otherwise. *)
Fixpoint set_field (k : string) (v : value) (fields : list (string * value))
  : list (string * value) :=
  match fields with
  | [] => [(k, v)]
  | (k', v') :: rest =>
      if String.eqb k' k then (k, v) :: rest else (k', v') :: set_field k v rest
  end.

(** An array length or a count as a JavaScript number. *)
Definition number (n : nat) : value :=
  VNum (PrimFloat.of_uint63 (Uint63.of_Z (Z.of_nat n))).

(** [xs.filter(t => t.status === 'completed').length]; reading [status]
    of a [null] element throws. *)
Fixpoint count_completed (xs : list value) : option nat :=
  match xs with
  | [] => Some 0
  | VNull :: _ => None
  | VObj fields :: rest =>
      match count_completed rest with
      | Some n =>
          match lookup_field "status" fields with
          | Some (VStr s) => Some (if String.eqb s "completed" then S n else n)
          | _ => Some n
          end
      | None => None
      end
  | _ :: rest => count_completed rest
  end.

(** [xs.find(i => i.id === itemId)] as the position of the first match;
    reading [id] of a [null] element before it throws. *)
Fixpoint find_by_id (itemId : string) (xs : list value) : option (option nat) :=
  match xs with
  | [] => Some None
  | VNull :: _ => None
  | x :: rest =>
      let here :=
        match x with
        | VObj fields =>
            match lookup_field "id" fields with
            | Some (VStr s) => String.eqb s itemId
            | _ => false
            end
        | _ => false
        end in
      if here then Some (Some 0)
      else match find_by_id itemId rest with
           | Some (Some n) => Some (Some (S n))
           | other => other
           end
  end.

Definition cannot_read : error := TypeError "Cannot read properties".
Definition not_a_function : error := TypeError "is not a function".
Definition cannot_assign : error := TypeError "Cannot create property".

(** The outcome of the statements that edit a loaded document in place:
    all ran and left [data], or one threw and left [partial]. *)
Inductive edited : Type :=
  | Edited (data : value)
  | Failed (e : error) (partial : jsval value).

(** [data[member].push(item)] on the document a [load] returned. *)
Definition push_into (member : string) (item : value) (data : jsval value) : edited :=
  match data with
  | JUndefined | JVal VNull => Failed cannot_read data
  | JVal (VObj fields) =>
      match lookup_field member fields with
      | Some (VArr xs) => Edited (VObj (set_field member (VArr (xs ++ [item])) fields))
      | Some VNull | None => Failed cannot_read data
      | Some _ => Failed not_a_function data
      end
  | JVal _ | JBuiltin _ => Failed cannot_read data
  end.

(** [target.k = v] in strict mode, on the value [target] of a member
    read: an object takes the property, an array takes it as an extra
    property that no JSON document shows, a primitive, [null] or
    [undefined] target throws. *)
Definition assign_field (k : string) (v : value) (target : option value)
  : option value :=
  match target with
  | Some (VObj fields) => Some (VObj (set_field k v fields))
  | Some (VArr xs) => Some (VArr xs)
  | _ => None
  end.

(** The metric statements of [saveTask] after the push:
    [data.metrics.totalTasks = data.tasks.length] and
    [data.metrics.completedTasks = data.tasks.filter(...).length]. *)
Definition update_metrics (fields : list (string * value)) (tasks : list value) : edited :=
  match assign_field "totalTasks" (number (length tasks)) (lookup_field "metrics" fields) with
  | None => Failed cannot_assign (JVal (VObj fields))
  | Some metrics1 =>
      let fields1 := set_field "metrics" metrics1 fields in
      match count_completed tasks with
      | None => Failed cannot_read (JVal (VObj fields1))
      | Some n =>
          match assign_field "completedTasks" (number n) (Some metrics1) with
          | None => Failed cannot_assign (JVal (VObj fields1))
          | Some metrics2 => Edited (VObj (set_field "metrics" metrics2 fields1))
          end
      end
  end.

Definition add_task (task : value) (data : jsval value) : edited :=
  match push_into "tasks" task data with
  | Edited (VObj fields) =>
      match lookup_field "tasks" fields with
      | Some (VArr tasks) => update_metrics fields tasks
      | _ => Edited (VObj fields)
      end
  | other => other
  end.

(** The field assignments of the edit branch of [saveItem]. *)
Definition edit_item (assignments : list (string * value)) (item : value) : value :=
  match item with
  | VObj fields =>
      VObj (fold_left (fun fs kv => set_field (fst kv) (snd kv) fs) assignments fields)
  | other => other
  end.

(** [const item = data.items.find(i => i.id === itemId); if (item) {...}] *)
Definition edit_existing (itemId : string) (assignments : list (string * value))
    (data : jsval value) : edited :=
  match data with
  | JUndefined | JVal VNull => Failed cannot_read data
  | JVal (VObj fields) =>
      match lookup_field "items" fields with
      | Some (VArr xs) =>
          match find_by_id itemId xs with
          | None => Failed cannot_read data
          | Some None => Edited (VObj fields)
          | Some (Some n) =>
              Edited (VObj (set_field "items"
                              (VArr (alter (edit_item assignments) n xs)) fields))
          end
      | Some VNull | None => Failed cannot_read data
      | Some _ => Failed not_a_function data
      end
  | JVal _ | JBuiltin _ => Failed cannot_read data
  end.

(** ** Form handlers and the dashboard *)

Section Handlers.

Variable engine : Engine.

(** Whether the document [load] is about to return is the object held in
    the cache (a hit, or a fetched document just stored) rather than a
    fresh default. *)
Definition shares_cache (env : Env) (fileName : string) (w : World) : bool :=
  truthy_js (cache_get engine w fileName)
  || negb (fetch_failed (fetch env (baseUrl (dm w) +:+ fileName))).

(** An in-place edit of a loaded document shows in the cache when the two
    are the same object.  An object reached only through a replaced
    prototype is left as it was. *)
Definition write_back (fileName : string) (aliased : bool) (data : jsval value)
    (w : World) : World :=
  match aliased, data, own (cache (dm w)) !! fileName with
  | true, JVal d, Some _ =>
      with_cache (JSObj (<[fileName := d]> (own (cache (dm w))))
                        (prototype (cache (dm w)))) w
  | _, _, _ => w
  end.

(** [load], the edit, [save], the toast and the list view shared by the
    three handlers once the title is accepted.  What the list template
    draws (and an exception raised while drawing) is not modelled. *)
Definition show_list (env : Env) (fileName : string) (w : World)
  : completion unit * World :=
  match load engine env fileName w with
  | (Returns data, w1) => (Returns tt, log_ui (ShowList fileName data) w1)
  | (Throws e, w1) => (Throws e, w1)
  end.

Definition load_edit_save (env : Env) (fileName : string)
    (edit : jsval value -> edited) (toast : string) (w : World)
  : completion unit * World :=
  let aliased := shares_cache env fileName w in
  match load engine env fileName w with
  | (Throws e, w1) => (Throws e, w1)
  | (Returns data, w1) =>
      match edit data with
      | Failed e partial => (Throws e, write_back fileName aliased partial w1)
      | Edited data' =>
          match save engine env fileName data'
                  (write_back fileName aliased (JVal data') w1) with
          | (Throws e, w2) => (Throws e, w2)
          | (Returns _, w2) => show_list env fileName (log_ui (Toast toast) w2)
          end
      end
  end.

(** [ManagementModule.saveTask()], given the three form fields. *)
Definition saveTask (env : Env) (title description status : string) (w : World)
  : completion unit * World :=
  if String.eqb title "" then
    (Returns tt, log_ui (Alert "יש למלא כותרת") w)
  else
    let task :=
      VObj [ ("id", VStr (generateId env)); ("title", VStr title);
             ("description", VStr description); ("status", VStr status);
             ("createdAt", VStr (formatDateTime env)) ] in
    load_edit_save env "tasks.json" (add_task task) "✓ המשימה נוצרה" w.

(** [LearningEnvironmentModule.saveItem(itemId = null)], given the eight
    form fields. *)
Definition saveItem (env : Env) (itemId : option string)
    (title type content summary course unitNumber documentType language : string)
    (w : World) : completion unit * World :=
  if String.eqb title "" then
    (Returns tt, log_ui (Alert "יש למלא כותרת") w)
  else
    let common :=
      [ ("title", VStr title); ("type", VStr type); ("content", VStr content);
        ("summary", VStr summary); ("course", VStr course);
        ("unitNumber", VStr unitNumber); ("documentType", VStr documentType);
        ("language", VStr language) ] in
    let edit :=
      match itemId with
      | Some id =>
          if String.eqb id "" then
            push_into "items"
              (VObj (("id", VStr (generateId env)) :: common ++
                     [ ("highlights", number 0); ("notes", number 0);
                       ("userNotes", VArr []);
                       ("createdAt", VStr (formatDateTime env)) ]))
          else
            edit_existing id (common ++ [ ("updatedAt", VStr (formatDateTime env)) ])
      | None =>
          push_into "items"
            (VObj (("id", VStr (generateId env)) :: common ++
                   [ ("highlights", number 0); ("notes", number 0);
                     ("userNotes", VArr []);
                     ("createdAt", VStr (formatDateTime env)) ]))
      end in
    load_edit_save env "knowledge.json" edit "✓ החומר נשמר בהצלחה" w.

(** [CreativeStudioModule.saveNewProject()], given the two form fields. *)
Definition saveNewProject (env : Env) (title description : string) (w : World)
  : completion unit * World :=
  if String.eqb title "" then
    (Returns tt, log_ui (Alert "יש למלא שם פרויקט") w)
  else
    let project :=
      VObj [ ("id", VStr (generateId env)); ("title", VStr title);
             ("description", VStr description); ("parts", VArr []);
             ("wordCount", number 0); ("createdAt", VStr (formatDateTime env)) ] in
    load_edit_save env "writing_projects.json" (push_into "projects" project)
      "✓ הפרויקט נוצר בהצלחה" w.




End Handlers.


(** ** Sample engine and environments for closed instances *)

(** Resolution along the chain of a plain data object: its own fields,
    then [Object.prototype].  Members specific to arrays are left out. *)
Definition plain_object_chain (p : value) (k : string) : prop value :=
  match p with
  | VObj fields =>
      match lookup_field k fields with
      | Some v => Data v
      | None => Object_prototype k
      end
  | _ => Object_prototype k
  end.

(** A stand-in serialiser: the results below hold for every engine, the
    closed instances need one. *)
Definition sample_engine : Engine :=
  {| inherited_from := plain_object_chain;
     JSON_stringify := fun _ => "{...}" |}.

(** Every request answered with 404. *)
Definition offline : Env :=
  {| fetch := fun _ => Response false None;
     storage_accepts := fun _ _ => true;
     Date_now := "1700000000000";
     Math_random_toString36 := "0.4fzyo82mvyr";
     Date_toISOString := "2024-01-02T03:04:05.678Z" |}.

(** Every request answered with the document [body]. *)
Definition serving (body : value) : Env :=
  {| fetch := fun _ => Response true (Some body);
     storage_accepts := fun _ _ => true;
     Date_now := "1700000000000";
     Math_random_toString36 := "0.4fzyo82mvyr";
     Date_toISOString := "2024-01-02T03:04:05.678Z" |}.

(** A stand-in for what the modules draw before [render()] returns. *)
Definition sample_render (m : AppModule) (html : string) : string :=
  match m with
  | dashboard => "<div class=module-container>...</div>"
  | _ => html
  end.

(** What a handler leaves behind when it turns the input down: it returns
    normally, the user has been shown [message], and the store was neither
    called nor changed. *)
Definition rejects_input (message : string) (w : World)
    (r : completion unit * World) : Prop :=
  fst r = Returns tt /\
  ui (snd r) = (ui w ++ [Alert message])%list /\
  calls (snd r) = calls w /\
  dm (snd r) = dm w /\
  localStorage (snd r) = localStorage w /\
  requests (snd r) = requests w /\
  console (snd r) = console w.

(** ** ThemeManager *)

(** [themeToggle] and [themeIcon] record whether [init] found the two
    elements ([null] before [init]). *)
Record ThemeManager : Type := {
  themeToggle : bool;
  themeIcon : bool;
  currentTheme : string
}.

(** What the theme code touches: local storage, whether [document.body]
    carries the class [dark-theme], the text of [#theme-icon] ([None] when
    the page has no such element), whether [#theme-toggle] exists, and the
    click listeners [init] has attached to it. *)
Record ThemePage : Type := {
  theme_storage : gmap string string;
  dark_theme : bool;
  icon_text : option string;
  has_toggle : bool;
  click_listeners : nat
}.

(** [new ThemeManager()]:
    [localStorage.getItem('btk-theme') || 'light']. *)
Definition new_ThemeManager (page : ThemePage) : ThemeManager :=
  {| themeToggle := false;
     themeIcon := false;
     currentTheme :=
       match theme_storage page !! "btk-theme" with
       | Some stored => if String.eqb stored "" then "light" else stored
       | None => "light"
       end |}.

(** [applyTheme(theme)].  [setItem] is the last statement: when it throws,
    the class, the icon and [currentTheme] have already changed. *)
Definition applyTheme (env : Env) (theme : string) (tm : ThemeManager)
    (page : ThemePage) : completion unit * ThemeManager * ThemePage :=
  let dark := String.eqb theme "dark" in
  let icon := if dark then "☀️" else "🌙" in
  let tm1 := {| themeToggle := themeToggle tm; themeIcon := themeIcon tm;
                currentTheme := theme |} in
  let page1 := {| theme_storage := theme_storage page;
                  dark_theme := dark;
                  icon_text := if themeIcon tm then Some icon else icon_text page;
                  has_toggle := has_toggle page;
                  click_listeners := click_listeners page |} in
  if storage_accepts env "btk-theme" theme then
    (Returns tt, tm1,
     {| theme_storage := <["btk-theme" := theme]> (theme_storage page1);
        dark_theme := dark_theme page1; icon_text := icon_text page1;
        has_toggle := has_toggle page1;
        click_listeners := click_listeners page1 |})
  else (Throws QuotaExceededError, tm1, page1).

(** [toggleTheme()] *)
Definition toggleTheme (env : Env) (tm : ThemeManager) (page : ThemePage)
  : completion unit * ThemeManager * ThemePage :=
  applyTheme env (if String.eqb (currentTheme tm) "light" then "dark" else "light")
    tm page.

(** [init()] *)
Definition init (env : Env) (tm : ThemeManager) (page : ThemePage)
  : completion unit * ThemeManager * ThemePage :=
  let tm1 := {| themeToggle := has_toggle page;
                themeIcon := match icon_text page with Some _ => true | None => false end;
                currentTheme := currentTheme tm |} in
  match applyTheme env (currentTheme tm1) tm1 page with
  | (Returns _, tm2, page2) =>
      (Returns tt, tm2,
       if themeToggle tm2 then
         {| theme_storage := theme_storage page2; dark_theme := dark_theme page2;
            icon_text := icon_text page2; has_toggle := has_toggle page2;
            click_listeners := S (click_listeners page2) |}
       else page2)
  | thrown => thrown
  end.

(** ** Labels *)

Definition truthy_text (r : jsval string) : bool :=
  match r with
  | JUndefined => false
  | JBuiltin _ => true
  | JVal s => negb (String.eqb s "")
  end.

(** A label table is an object literal of strings; nothing is ever
    installed as its prototype.  The key is a string, which is what the
    forms store as a status or a type. *)
Definition label_of (labels : list (string * string)) (key : string) : jsval string :=
  let found := js_get (fun _ _ => Absent) (object_literal labels) key in
  if truthy_text found then found else JVal key.

(** The [labels] literals of [getStatusLabel] and [getTypeLabel]. *)
Definition status_labels : list (string * string) :=
  [ ("pending", "ממתין"); ("in-progress", "בתהליך"); ("completed", "הושלם") ].

Definition type_labels : list (string * string) :=
  [ ("pdf", "PDF"); ("text", "טקסט"); ("image", "תמונה"); ("video", "וידאו") ].

(** [ManagementModule.getStatusLabel(status)]: [labels[status] || status] *)
Definition getStatusLabel (status : string) : jsval string :=
  label_of status_labels status.

(** [LearningEnvironmentModule.getTypeLabel(type)]: [labels[type] || type] *)
Definition getTypeLabel (type : string) : jsval string :=
  label_of type_labels type.

(** ** Handlers that change or remove an entry *)

(** [x.id === id] for an element that is not [null]. *)
Definition has_id (id : string) (x : value) : bool :=
  match x with
  | VObj fields =>
      match lookup_field "id" fields with
      | Some (VStr s) => String.eqb s id
      | _ => false
      end
  | _ => false
  end.

(** [xs.filter(d => d.id !== id)]; reading [id] of a [null] element
    throws. *)
Fixpoint filter_out_id (id : string) (xs : list value) : option (list value) :=
  match xs with
  | [] => Some []
  | VNull :: _ => None
  | x :: rest =>
      match filter_out_id id rest with
      | Some kept => Some (if has_id id x then kept else x :: kept)
      | None => None
      end
  end.



(** The body of [completeTask] between [load] and [save]; [None] when no
    task has the id, in which case the handler returns without saving. *)
Definition complete_task (taskId stamp : string) (data : jsval value) : option edited :=
  match data with
  | JUndefined | JVal VNull => Some (Failed cannot_read data)
  | JVal (VObj fields) =>
      match lookup_field "tasks" fields with
      | Some (VArr tasks) =>
          match find_by_id taskId tasks with
          | None => Some (Failed cannot_read data)
          | Some None => None
          | Some (Some n) =>
              let tasks1 :=
                alter (edit_item [ ("status", VStr "completed");
                                   ("completedAt", VStr stamp) ]) n tasks in
              let fields1 := set_field "tasks" (VArr tasks1) fields in
              match count_completed tasks1 with
              | None => Some (Failed cannot_read (JVal (VObj fields1)))
              | Some c =>
                  match assign_field "completedTasks" (number c)
                          (lookup_field "metrics" fields1) with
                  | Some metrics =>
                      Some (Edited (VObj (set_field "metrics" metrics fields1)))
                  | None => Some (Failed cannot_assign (JVal (VObj fields1)))
                  end
              end
          end
      | Some VNull | None => Some (Failed cannot_read data)
      | Some _ => Some (Failed not_a_function data)
      end
  | JVal _ | JBuiltin _ => Some (Failed cannot_read data)
  end.

Section MoreHandlers.

Variable engine : Engine.

(** [load], the edit, then (unless the edit found nothing to do) [save],
    the list view and the toast, in the order of [completeTask] and of the
    four delete handlers. *)
Definition load_edit_save_show (env : Env) (fileName : string)
    (edit : jsval value -> option edited) (toast : string) (w : World)
  : completion unit * World :=
  let aliased := shares_cache engine env fileName w in
  match load engine env fileName w with
  | (Throws e, w1) => (Throws e, w1)
  | (Returns data, w1) =>
      match edit data with
      | None => (Returns tt, w1)
      | Some (Failed e partial) => (Throws e, write_back fileName aliased partial w1)
      | Some (Edited data') =>
          match save engine env fileName data'
                  (write_back fileName aliased (JVal data') w1) with
          | (Throws e, w2) => (Throws e, w2)
          | (Returns _, w2) =>
              match show_list engine env fileName w2 with
              | (Throws e, w3) => (Throws e, w3)
              | (Returns _, w3) => (Returns tt, log_ui (Toast toast) w3)
              end
          end
      end
  end.

(** [ManagementModule.completeTask(taskId)] *)
Definition completeTask (env : Env) (taskId : string) (w : World)
  : completion unit * World :=
  load_edit_save_show env "tasks.json" (complete_task taskId (formatDateTime env))
    "✓ המשימה הושלמה" w.





End MoreHandlers.

(** ** Sequences of navigations *)

(** One [navigate] per name, each a click handled on its own: a throwing
    call does not stop the later ones. *)
Definition navigate_all {M : Type} (module_chain : M -> string -> prop M)
    (render : M -> string -> string) (names : list string) (r : Router M)
  : Router M :=
  fold_left (fun r name => snd (navigate M module_chain render name r)) names r.

(** A string without the character [c]. *)
Fixpoint lacks (c : Ascii.ascii) (s : string) : bool :=
  match s with
  | EmptyString => true
  | String a rest => negb (Ascii.eqb a c) && lacks c rest
  end.

(** What a handler leaves in the store [w'] after it has saved [doc] under
    [name] from [w]: the cache reads [doc], local storage holds its text,
    and no request was sent. *)
Definition stored (engine : Engine) (name : string) (doc : value) (w w' : World)
  : Prop :=
  cache_get engine w' name = JVal doc
  /\ localStorage w' !! ("btk_" +:+ name) = Some (JSON_stringify engine doc)
  /\ requests w' = requests w.




(** The three parts of what a ThemeManager method leaves. *)
Definition outcome (r : completion unit * ThemeManager * ThemePage) : completion unit :=
  fst (fst r).
Definition manager (r : completion unit * ThemeManager * ThemePage) : ThemeManager :=
  snd (fst r).
Definition page_of (r : completion unit * ThemeManager * ThemePage) : ThemePage :=
  snd r.

(** The page as a ThemeManager sees it when the script starts. *)
Definition page_with_theme (stored : option string) : ThemePage :=
  {| theme_storage := match stored with
                      | Some theme => {[ "btk-theme" := theme ]}
                      | None => ∅
                      end;
     dark_theme := false;
     icon_text := Some "🌙";
     has_toggle := true;
     click_listeners := 0 |}.





(** ** More samples for closed instances *)

(** Local storage that refuses every write, behind a remote that answers
    404. *)
Definition storage_full : Env :=
  {| fetch := fun _ => Response false None;
     storage_accepts := fun _ _ => false;
     Date_now := "1700000000000";
     Math_random_toString36 := "0.4fzyo82mvyr";
     Date_toISOString := "2024-01-02T03:04:05.678Z" |}.

(** The initial store with one document already in the cache. *)
Definition cached (name : string) (doc : value) : World :=
  with_cache (object_literal [(name, doc)]) initial_world.

Definition sample_tasks : value :=
  VObj [ ("tasks",
           VArr [ VObj [ ("id", VStr "t1"); ("title", VStr "Scales");
                         ("status", VStr "completed") ];
                  VObj [ ("id", VStr "t2"); ("title", VStr "Etude");
                         ("status", VStr "pending") ] ]);
         ("reviews", VArr []);
         ("metrics", VObj [ ("totalTasks", number 2); ("completedTasks", number 1) ]) ].

Definition sample_knowledge : value :=
  VObj [ ("items",
           VArr [ VObj [ ("id", VStr "k1"); ("title", VStr "Harmony");
                         ("highlights", number 3) ] ]) ].

(** * Properties *)

(** ** Objects used as maps *)

Section JSObjectFacts.
Context {A : Type}.
Variable kind_of_A : A -> kind.
Variable inherited_from : A -> string -> prop A.

Lemma find_own (o : jsobj A) (k : string) (a : A) :
  own o !! k = Some a -> find inherited_from o k = Data a.
Proof. intros H. unfold find. now rewrite H. Qed.

Lemma js_get_own (o : jsobj A) (k : string) (a : A) :
  own o !! k = Some a -> js_get inherited_from o k = JVal a.
Proof. intros H. unfold js_get. now rewrite (find_own _ _ _ H). Qed.

Lemma js_set_ordinary (o : jsobj A) (k : string) (v : A) :
  ordinary inherited_from o k = true ->
  js_set kind_of_A inherited_from o k v = JSObj (<[k := v]> (own o)) (prototype o).
Proof. unfold ordinary, js_set. now destruct (find inherited_from o k). Qed.

Lemma js_get_set_ordinary (o : jsobj A) (k : string) (v : A) :
  ordinary inherited_from o k = true ->
  js_get inherited_from (js_set kind_of_A inherited_from o k v) k = JVal v.
Proof.
  intros H. rewrite (js_set_ordinary _ _ _ H).
  apply js_get_own. cbn. apply lookup_insert_eq.
Qed.

Lemma ordinary_own (o : jsobj A) (k : string) (a : A) :
  own o !! k = Some a -> ordinary inherited_from o k = true.
Proof. intros H. unfold ordinary. now rewrite (find_own _ _ _ H). Qed.

(** On an object created by a literal, every key other than [__proto__]
    is ordinary. *)
Lemma ordinary_ObjectPrototype (o : jsobj A) (k : string) :
  prototype o = ObjectPrototype -> k <> "__proto__" ->
  ordinary inherited_from o k = true.
Proof.
  intros Hp Hk. unfold ordinary, find.
  destruct (own o !! k); [reflexivity|]. rewrite Hp.
  unfold Object_prototype.
  destruct (String.eqb k "__proto__") eqn:E.
  - apply String.eqb_eq in E. contradiction.
  - now destruct (bool_decide _).
Qed.

(** A key that resolves to nothing reads as [undefined]. *)
Lemma js_get_absent (o : jsobj A) (k : string) :
  find inherited_from o k = Absent -> js_get inherited_from o k = JUndefined.
Proof. intros H. unfold js_get. now rewrite H. Qed.

End JSObjectFacts.

(** ** DataManager *)

(** The falsy documents, for which the cache test of [load] fails. *)
Example falsy_documents :
  truthy VNull = false /\ truthy (VBool false) = false
  /\ truthy (VNum 0%float) = false /\ truthy (VNum (-0)%float) = false
  /\ truthy (VNum PrimFloat.nan) = false /\ truthy (VStr "") = false
  /\ truthy (VNum 0.5%float) = true /\ truthy (VStr "0") = true
  /\ truthy (VArr []) = true /\ truthy (VObj []) = true.
Proof. repeat split; reflexivity. Qed.

Section StoreFacts.

Variable engine : Engine.

Lemma load_hit (env : Env) (name : string) (w : World) :
  truthy_js (cache_get engine w name) = true ->
  load engine env name w
  = (Returns (cache_get engine w name), log_call (CallLoad name) w).
Proof.
  intros H. unfold load.
  change (cache_get engine (log_call (CallLoad name) w) name)
    with (cache_get engine w name).
  now rewrite H.
Qed.

Lemma load_miss_fetched (env : Env) (name : string) (w : World) (data : value) :
  truthy_js (cache_get engine w name) = false ->
  fetch env (baseUrl (dm w) +:+ name) = Response true (Some data) ->
  load engine env name w
  = (Returns (JVal data),
     cache_set engine name data
       (log_request (baseUrl (dm w) +:+ name) (log_call (CallLoad name) w))).
Proof.
  intros H F. unfold load.
  change (cache_get engine (log_call (CallLoad name) w) name)
    with (cache_get engine w name).
  rewrite H.
  change (baseUrl (dm (log_call (CallLoad name) w))) with (baseUrl (dm w)).
  now rewrite F.
Qed.

Lemma load_miss_failed (env : Env) (name : string) (w : World) :
  truthy_js (cache_get engine w name) = false ->
  fetch_failed (fetch env (baseUrl (dm w) +:+ name)) = true ->
  load engine env name w
  = (Returns (getDefaultData engine name),
     log_console ("Error loading " +:+ name +:+ ":")
       (log_request (baseUrl (dm w) +:+ name) (log_call (CallLoad name) w))).
Proof.
  intros H F. unfold load.
  change (cache_get engine (log_call (CallLoad name) w) name)
    with (cache_get engine w name).
  rewrite H.
  change (baseUrl (dm (log_call (CallLoad name) w))) with (baseUrl (dm w)).
  destruct (fetch env (baseUrl (dm w) +:+ name)) as [|[] [d|]];
    try reflexivity. discriminate F.
Qed.

(** A miss sends exactly one request, whatever the remote answers. *)
Lemma load_miss_requests (env : Env) (name : string) (w : World) :
  truthy_js (cache_get engine w name) = false ->
  requests (snd (load engine env name w))
  = (requests w ++ [baseUrl (dm w) +:+ name])%list.
Proof.
  intros H.
  destruct (fetch_failed (fetch env (baseUrl (dm w) +:+ name))) eqn:F.
  - now rewrite (load_miss_failed _ _ _ H F).
  - destruct (fetch env (baseUrl (dm w) +:+ name)) as [|[] [d|]] eqn:E;
      try discriminate F.
    now rewrite (load_miss_fetched _ _ _ _ H E).
Qed.


Lemma save_cache (env : Env) (name : string) (v : value) (w : World) :
  cache (dm (snd (save engine env name v w)))
  = js_set kind_of (inherited_from engine) (cache (dm w)) name v.
Proof. unfold save. now destruct (storage_accepts _ _ _). Qed.

Lemma save_requests (env : Env) (name : string) (v : value) (w : World) :
  requests (snd (save engine env name v w)) = requests w.
Proof. unfold save. now destruct (storage_accepts _ _ _). Qed.

Lemma save_baseUrl (env : Env) (name : string) (v : value) (w : World) :
  baseUrl (dm (snd (save engine env name v w))) = baseUrl (dm w).
Proof. unfold save. now destruct (storage_accepts _ _ _). Qed.

(** The value [load] returns is a function of the store object and the
    remote alone. *)
Lemma load_fst_dm (env : Env) (name : string) (w1 w2 : World) :
  dm w1 = dm w2 ->
  fst (load engine env name w1) = fst (load engine env name w2).
Proof.
  intros H. unfold load, cache_get. cbn. rewrite H.
  destruct (truthy_js _); [reflexivity|].
  now destruct (fetch env _) as [|[] [d|]].
Qed.

End StoreFacts.

Section StoreClaims.

Variable engine : Engine.

(** The default of each of the five names in the table is its shape. *)
Lemma getDefaultData_shape (name : string) (shape : value) :
  (name, shape) ∈ default_shapes ->
  getDefaultData engine name = JVal shape /\ truthy shape = true.
Proof.
  unfold default_shapes. intros H.
  repeat (apply elem_of_cons in H as [H|H];
          [injection H as -> ->; split; vm_compute; reflexivity|]).
  now apply elem_of_nil in H.
Qed.

(** For each of the five document names of the default table, a [load]
    whose retrieval fails (network error, non-ok status or unparsable
    body) fulfils its promise with exactly that name's default shape, which
    is neither [null] nor [undefined], and caches nothing. *)
Theorem load_failure_returns_default
    (env : Env) (name : string) (shape : value) (w : World) :
  (name, shape) ∈ default_shapes ->
  truthy_js (cache_get engine w name) = false ->
  fetch_failed (fetch env (baseUrl (dm w) +:+ name)) = true ->
  fst (load engine env name w) = Returns (JVal shape)
  /\ truthy shape = true
  /\ dm (snd (load engine env name w)) = dm w.
Proof.
  intros Hin Hmiss Hfail.
  destruct (getDefaultData_shape _ _ Hin) as [Hd Ht].
  rewrite (load_miss_failed _ _ _ _ Hmiss Hfail). cbn.
  rewrite Hd. auto.
Qed.

(** A name that is neither in the default table nor a member of
    [Object.prototype] defaults to the empty object. *)
Theorem getDefaultData_unknown_name (name : string) :
  name ∉ default_shapes.*1 ->
  Object_prototype (A:=value) name = Absent ->
  getDefaultData engine name = JVal (VObj []).
Proof.
  intros Hn Ha. unfold getDefaultData, js_get, find, defaults, object_literal.
  cbn [own prototype].
  rewrite (proj1 (not_elem_of_list_to_map default_shapes name) Hn).
  now rewrite Ha.
Qed.

(** C2 (amended).  For every truthy document [v] and every name that is
    ordinary on the cache, [save(name, v)] followed by [load(name)] returns
    [v] from the cache and sends no request. *)
Theorem save_then_load_truthy
    (env1 env2 : Env) (name : string) (v : value) (w : World) :
  truthy v = true ->
  ordinary (inherited_from engine) (cache (dm w)) name = true ->
  fst (load engine env2 name (snd (save engine env1 name v w))) = Returns (JVal v)
  /\ requests (snd (load engine env2 name (snd (save engine env1 name v w))))
     = requests w.
Proof.
  intros Hv Hk.
  assert (Hget : cache_get engine (snd (save engine env1 name v w)) name = JVal v).
  { unfold cache_get. rewrite save_cache. now apply js_get_set_ordinary. }
  rewrite load_hit by (rewrite Hget; exact Hv).
  rewrite Hget. cbn. split; [reflexivity|apply save_requests].
Qed.

(** C3 (amended).  When the first [load(name)] is a cache hit, or its
    retrieval succeeds with a truthy document under an ordinary name, the
    second [load(name)] is a cache hit: it returns the same document and
    sends no request, so the pair sends at most one. *)
Theorem second_load_is_cache_hit (env1 env2 : Env) (name : string) (w : World) :
  truthy_js (cache_get engine w name) = true
  \/ (ordinary (inherited_from engine) (cache (dm w)) name = true
      /\ exists data, fetch env1 (baseUrl (dm w) +:+ name) = Response true (Some data)
                      /\ truthy data = true) ->
  fst (load engine env2 name (snd (load engine env1 name w)))
  = fst (load engine env1 name w)
  /\ requests (snd (load engine env2 name (snd (load engine env1 name w))))
     = requests (snd (load engine env1 name w))
  /\ length (requests (snd (load engine env1 name w))) <= S (length (requests w)).
Proof.
  intros [Hhit | (Hk & data & Hf & Ht)].
  - rewrite (load_hit _ env1 _ _ Hhit). cbn [fst snd].
    assert (H' : truthy_js (cache_get engine (log_call (CallLoad name) w) name) = true)
      by exact Hhit.
    rewrite (load_hit _ env2 _ _ H'). cbn. repeat split. lia.
  - destruct (truthy_js (cache_get engine w name)) eqn:Hc.
    + rewrite (load_hit _ env1 _ _ Hc). cbn [fst snd].
      assert (H' : truthy_js (cache_get engine (log_call (CallLoad name) w) name) = true)
        by exact Hc.
      rewrite (load_hit _ env2 _ _ H'). cbn. repeat split. lia.
    + rewrite (load_miss_fetched _ _ _ _ _ Hc Hf). cbn [fst snd].
      set (w1 := cache_set engine name data _).
      assert (Hget : cache_get engine w1 name = JVal data).
      { unfold w1, cache_get, cache_set. cbn.
        now apply js_get_set_ordinary. }
      rewrite load_hit by (rewrite Hget; exact Ht).
      rewrite Hget. cbn. repeat split.
      rewrite length_app. cbn. lia.
Qed.

(** After the cache has been cleared, [load] of a name that
    [Object.prototype] does not define sends a request, whatever the cache
    held before. *)
Theorem load_after_clearCache_retrieves (env : Env) (name : string) (w : World) :
  Object_prototype (A:=value) name = Absent ->
  requests (snd (load engine env name (clearCache w)))
  = (requests w ++ [baseUrl (dm w) +:+ name])%list.
Proof.
  intros Ha. rewrite load_miss_requests; [reflexivity|].
  unfold cache_get, clearCache. cbn.
  rewrite js_get_absent; [reflexivity|]. exact Ha.
Qed.

(** For a name that is ordinary on the cache, [save(name, v)] makes
    [this.cache[name]] read [v] (also when the write to local storage
    throws), and once that write completes the text of [v] is stored under
    ["btk_" + name] and the call returns [true]. *)
Theorem save_ordinary_name (env : Env) (name : string) (v : value) (w : World) :
  ordinary (inherited_from engine) (cache (dm w)) name = true ->
  cache_get engine (snd (save engine env name v w)) name = JVal v
  /\ (storage_accepts env ("btk_" +:+ name) (JSON_stringify engine v) = true ->
      fst (save engine env name v w) = Returns true
      /\ localStorage (snd (save engine env name v w)) !! ("btk_" +:+ name)
         = Some (JSON_stringify engine v)).
Proof.
  intros Hk. split.
  - unfold cache_get. rewrite save_cache. now apply js_get_set_ordinary.
  - intros Hs. unfold save. rewrite Hs. cbn. split; [reflexivity|].
    apply lookup_insert_eq.
Qed.

(** C9.  [load] never reads local storage: replacing the stored texts
    changes neither the value returned nor anything else [load] does, and
    after a cache clear a [load] returns what it would have returned had
    the preceding [save] never happened. *)
Theorem load_ignores_localStorage :
  (forall (env : Env) (name : string) (w : World) (s : gmap string string),
      load engine env name (with_localStorage s w)
      = (fst (load engine env name w),
         with_localStorage s (snd (load engine env name w))))
  /\ (forall (env1 env2 : Env) (name : string) (v : value) (w : World),
        fst (load engine env2 name (clearCache (snd (save engine env1 name v w))))
        = fst (load engine env2 name (clearCache w))).
Proof.
  split.
  - intros env name w s. unfold load, cache_get. cbn.
    destruct (truthy_js _); [reflexivity|].
    now destruct (fetch env _) as [|[] [d|]].
  - intros env1 env2 name v w. apply load_fst_dm.
    unfold clearCache, with_cache. cbn. now rewrite save_baseUrl.
Qed.

(** C10.  The cache test of [load] is truthiness, not key presence: when
    the cache holds a value under [name], a falsy one is treated as a miss
    and a request is sent, and a truthy one is returned without a
    request. *)
Theorem load_cache_test_is_truthiness
    (env : Env) (name : string) (v : value) (w : World) :
  own (cache (dm w)) !! name = Some v ->
  (truthy v = false ->
   requests (snd (load engine env name w))
   = (requests w ++ [baseUrl (dm w) +:+ name])%list)
  /\ (truthy v = true ->
      fst (load engine env name w) = Returns (JVal v)
      /\ requests (snd (load engine env name w)) = requests w).
Proof.
  intros Hown.
  assert (Hget : cache_get engine w name = JVal v)
    by (unfold cache_get; now apply js_get_own).
  split; intros Hv.
  - apply load_miss_requests. now rewrite Hget.
  - rewrite load_hit by (now rewrite Hget). rewrite Hget. now cbn.
Qed.

End StoreClaims.

(** C1 (failing input).  [defaults["toString"]] is the function every
    object literal inherits, so the unknown name [toString] does not
    default to an empty object; [load] returns that function when its
    retrieval fails while the cache holds [null] under the name. *)
Theorem load_failure_inherited_name :
  (forall engine : Engine, getDefaultData engine "toString" = JBuiltin "toString")
  /\ fst (load sample_engine offline "toString"
            (snd (save sample_engine offline "toString" VNull initial_world)))
     = Returns (JBuiltin "toString").
Proof. split; [intros engine|]; vm_compute; reflexivity. Qed.

(** C4 (failing input).  On the cache just cleared, [load("constructor")]
    finds the inherited [constructor], returns it and sends no request. *)
Theorem load_after_clearCache_inherited_name :
  forall (engine : Engine) (env : Env) (w : World),
    load engine env "constructor" (clearCache w)
    = (Returns (JBuiltin "constructor"),
       log_call (CallLoad "constructor") (clearCache w)).
Proof. intros engine env w. now apply load_hit. Qed.

(** C8 (failing input).  On a fresh cache, [save("__proto__", "x")] runs
    the inherited setter, which ignores a string: the cache is left as it
    was and [this.cache["__proto__"]] still reads [Object.prototype]. *)
Theorem save_proto_primitive :
  forall (engine : Engine) (env : Env) (w : World),
    cache (dm (snd (save engine env "__proto__" (VStr "x") (clearCache w))))
    = empty_object
    /\ cache_get engine (snd (save engine env "__proto__" (VStr "x") (clearCache w)))
         "__proto__"
       = JBuiltin "Object.prototype".
Proof.
  intros engine env w. unfold cache_get. rewrite save_cache. split; reflexivity.
Qed.

(** An instance of C9: the text of a saved document sits in local storage
    under its key, yet after a cache clear a [load] with the remote
    answering 404 returns the default document. *)
Example persisted_value_is_not_reloaded :
  let saved := VObj [("tasks", VArr [VStr "t"]); ("reviews", VArr []); ("metrics", VObj [])] in
  let w := clearCache (snd (save sample_engine offline "tasks.json" saved initial_world)) in
  localStorage w !! "btk_tasks.json" = Some (JSON_stringify sample_engine saved)
  /\ fst (load sample_engine offline "tasks.json" w)
     = Returns (JVal (VObj [("tasks", VArr []); ("reviews", VArr []); ("metrics", VObj [])])).
Proof. split; vm_compute; reflexivity. Qed.

(** C2 (counterexample).  [save("documents.json", null)] followed by
    [load("documents.json")] with the remote answering 404 sends a request
    and returns the default document, not [null]. *)
Lemma save_then_load_falsy_value :
  fst (load sample_engine offline "documents.json"
         (snd (save sample_engine offline "documents.json" VNull initial_world)))
  = Returns (JVal (VObj [("documents", VArr [])]))
  /\ requests (snd (load sample_engine offline "documents.json"
                      (snd (save sample_engine offline "documents.json" VNull
                              initial_world))))
     = ["data/documents.json"].
Proof. split; vm_compute; reflexivity. Qed.

(** C3 (counterexample).  Two [load("tasks.json")] in a row with the
    remote answering 404 send two requests: the default returned by the
    first call is not cached. *)
Lemma load_twice_after_failure_fetches_twice :
  requests (snd (load sample_engine offline "tasks.json"
                   (snd (load sample_engine offline "tasks.json" initial_world))))
  = ["data/tasks.json"; "data/tasks.json"].
Proof. vm_compute. reflexivity. Qed.

Lemma load_failure_returns_default_witness :
  fst (load sample_engine offline "tasks.json" initial_world)
  = Returns (JVal (VObj [("tasks", VArr []); ("reviews", VArr []); ("metrics", VObj [])]))
  /\ truthy (VObj [("tasks", VArr []); ("reviews", VArr []); ("metrics", VObj [])]) = true
  /\ dm (snd (load sample_engine offline "tasks.json" initial_world)) = dm initial_world.
Proof.
  apply (load_failure_returns_default sample_engine offline "tasks.json" _ initial_world).
  - unfold default_shapes. do 4 apply list_elem_of_further. apply list_elem_of_here.
  - reflexivity.
  - reflexivity.
Defined.

Lemma getDefaultData_unknown_name_witness :
  getDefaultData sample_engine "settings.json" = JVal (VObj []).
Proof.
  apply (getDefaultData_unknown_name sample_engine "settings.json").
  - apply (bool_decide_unpack _). vm_compute. exact I.
  - reflexivity.
Defined.

Lemma save_then_load_truthy_witness :
  fst (load sample_engine offline "documents.json"
         (snd (save sample_engine offline "documents.json"
                 (VObj [("documents", VArr [VObj [("id", VStr "a")]])]) initial_world)))
  = Returns (JVal (VObj [("documents", VArr [VObj [("id", VStr "a")]])]))
  /\ requests (snd (load sample_engine offline "documents.json"
                      (snd (save sample_engine offline "documents.json"
                              (VObj [("documents", VArr [VObj [("id", VStr "a")]])])
                              initial_world))))
     = requests initial_world.
Proof.
  apply (save_then_load_truthy sample_engine offline offline "documents.json"
           (VObj [("documents", VArr [VObj [("id", VStr "a")]])]) initial_world);
    reflexivity.
Defined.

Lemma second_load_is_cache_hit_witness :
  fst (load sample_engine offline "tasks.json"
         (snd (load sample_engine (serving (VObj [("tasks", VArr [])])) "tasks.json"
                 initial_world)))
  = fst (load sample_engine (serving (VObj [("tasks", VArr [])])) "tasks.json"
           initial_world)
  /\ requests (snd (load sample_engine offline "tasks.json"
                      (snd (load sample_engine (serving (VObj [("tasks", VArr [])]))
                              "tasks.json" initial_world))))
     = requests (snd (load sample_engine (serving (VObj [("tasks", VArr [])]))
                        "tasks.json" initial_world))
  /\ length (requests (snd (load sample_engine (serving (VObj [("tasks", VArr [])]))
                              "tasks.json" initial_world)))
     <= S (length (requests initial_world)).
Proof.
  apply (second_load_is_cache_hit sample_engine
           (serving (VObj [("tasks", VArr [])])) offline "tasks.json" initial_world).
  right. split; [reflexivity|].
  exists (VObj [("tasks", VArr [])]). split; reflexivity.
Defined.

Lemma load_after_clearCache_retrieves_witness :
  requests (snd (load sample_engine offline "tasks.json"
                   (clearCache
                      (snd (save sample_engine offline "tasks.json"
                              (VObj [("tasks", VArr [])]) initial_world)))))
  = ["data/tasks.json"].
Proof.
  apply (load_after_clearCache_retrieves sample_engine offline "tasks.json"
           (snd (save sample_engine offline "tasks.json"
                   (VObj [("tasks", VArr [])]) initial_world))).
  reflexivity.
Defined.

Lemma save_ordinary_name_witness :
  cache_get sample_engine
    (snd (save sample_engine offline "tasks.json" (VObj []) initial_world)) "tasks.json"
  = JVal (VObj [])
  /\ (storage_accepts offline ("btk_" +:+ "tasks.json")
        (JSON_stringify sample_engine (VObj [])) = true ->
      fst (save sample_engine offline "tasks.json" (VObj []) initial_world) = Returns true
      /\ localStorage (snd (save sample_engine offline "tasks.json" (VObj []) initial_world))
           !! ("btk_" +:+ "tasks.json")
         = Some (JSON_stringify sample_engine (VObj []))).
Proof.
  apply (save_ordinary_name sample_engine offline "tasks.json" (VObj []) initial_world).
  reflexivity.
Defined.

Lemma load_cache_test_is_truthiness_witness :
  (truthy VNull = false ->
   requests (snd (load sample_engine offline "tasks.json"
                    (snd (save sample_engine offline "tasks.json" VNull initial_world))))
   = (requests (snd (save sample_engine offline "tasks.json" VNull initial_world))
      ++ [baseUrl (dm (snd (save sample_engine offline "tasks.json" VNull initial_world)))
          +:+ "tasks.json"])%list)
  /\ (truthy VNull = true ->
      fst (load sample_engine offline "tasks.json"
             (snd (save sample_engine offline "tasks.json" VNull initial_world)))
      = Returns (JVal VNull)
      /\ requests (snd (load sample_engine offline "tasks.json"
                          (snd (save sample_engine offline "tasks.json" VNull
                                  initial_world))))
         = requests (snd (save sample_engine offline "tasks.json" VNull initial_world))).
Proof.
  apply (load_cache_test_is_truthiness sample_engine offline "tasks.json" VNull
           (snd (save sample_engine offline "tasks.json" VNull initial_world))).
  reflexivity.
Defined.

(** ** Router *)

Section RouterClaims.

Variable M : Type.
Variable module_chain : M -> string -> prop M.
Variable render : M -> string -> string.

(** [registerModule] registers the module under an ordinary name, and the
    last registration for a name wins. *)
Lemma registerModule_registered (r : Router M) (name : string) (m : M) :
  ordinary module_chain (modules r) name = true ->
  registered M module_chain (registerModule M module_chain name m r) name m.
Proof.
  intros H. unfold registered, registerModule. cbn.
  now apply js_get_set_ordinary.
Qed.

(** Registering under another ordinary name leaves a registration alone. *)
Lemma registerModule_other (r : Router M) (name name' : string) (m m' : M) :
  name <> name' ->
  ordinary module_chain (modules r) name = true ->
  registered M module_chain r name' m' ->
  registered M module_chain (registerModule M module_chain name m r) name' m'.
Proof.
  intros Hne Hk. unfold registered, registerModule. cbn.
  rewrite (js_set_ordinary _ _ _ _ _ Hk).
  unfold js_get, find, prototype_value. cbn.
  now rewrite lookup_insert_ne.
Qed.

(** C5.  For a name registered to a module, [navigate(name)] returns
    normally, sets the current view to [name] and calls that module's
    [render] once and no other; a second [navigate(name)] calls it once
    more. *)
Theorem navigate_registered (r : Router M) (name : string) (m : M) :
  registered M module_chain r name m ->
  navigate M module_chain render name r
  = (Returns tt,
     {| currentView := Some name; modules := modules r;
        app_innerHTML := render m (app_innerHTML r);
        rendered := rendered r ++ [m] |})
  /\ fst (navigate M module_chain render name
            (snd (navigate M module_chain render name r))) = Returns tt
  /\ currentView (snd (navigate M module_chain render name
                         (snd (navigate M module_chain render name r)))) = Some name
  /\ rendered (snd (navigate M module_chain render name
                      (snd (navigate M module_chain render name r))))
     = (rendered r ++ [m; m])%list.
Proof.
  unfold registered. intros H.
  assert (H1 : navigate M module_chain render name r
               = (Returns tt,
                  {| currentView := Some name; modules := modules r;
                     app_innerHTML := render m (app_innerHTML r);
                     rendered := rendered r ++ [m] |})).
  { unfold navigate. cbn. now rewrite H. }
  rewrite H1. split; [reflexivity|].
  unfold navigate. cbn. rewrite H. cbn.
  repeat split. now rewrite <- app_assoc.
Qed.

(** For a name that resolves to nothing on [this.modules], [navigate]
    returns normally, sets the current view, writes the "module not found"
    markup and calls no [render]; doing it again leaves the same state. *)
Theorem navigate_unregistered (r : Router M) (name : string) :
  find module_chain (modules r) name = Absent ->
  navigate M module_chain render name r
  = (Returns tt,
     {| currentView := Some name; modules := modules r;
        app_innerHTML := module_not_found; rendered := rendered r |})
  /\ navigate M module_chain render name (snd (navigate M module_chain render name r))
     = navigate M module_chain render name r.
Proof.
  intros H.
  assert (H1 : navigate M module_chain render name r
               = (Returns tt,
                  {| currentView := Some name; modules := modules r;
                     app_innerHTML := module_not_found; rendered := rendered r |})).
  { unfold navigate. cbn. now rewrite (js_get_absent _ _ _ H). }
  rewrite H1. split; [reflexivity|].
  unfold navigate. cbn. now rewrite (js_get_absent _ _ _ H).
Qed.

End RouterClaims.

(** C6 (failing input).  On the router of the application,
    [navigate("constructor")] finds the inherited [constructor] function,
    takes the module branch and throws on [module.render()], with the
    current view already set. *)
Theorem navigate_inherited_name :
  forall (render : AppModule -> string -> string) (html : string),
    fst (navigate AppModule AppModule_chain render "constructor" (app_router render html))
    = Throws (TypeError "module.render is not a function")
    /\ currentView (snd (navigate AppModule AppModule_chain render "constructor"
                           (app_router render html)))
       = Some "constructor"
    /\ app_innerHTML (snd (navigate AppModule AppModule_chain render "constructor"
                             (app_router render html)))
       = html.
Proof. intros render html. repeat split; vm_compute; reflexivity. Qed.

Lemma navigate_registered_witness :
  navigate AppModule AppModule_chain sample_render "dashboard" (app_router sample_render "")
  = (Returns tt,
     {| currentView := Some "dashboard";
        modules := modules (app_router sample_render "");
        app_innerHTML := sample_render dashboard (app_innerHTML (app_router sample_render ""));
        rendered := rendered (app_router sample_render "") ++ [dashboard] |})
  /\ fst (navigate AppModule AppModule_chain sample_render "dashboard"
            (snd (navigate AppModule AppModule_chain sample_render "dashboard"
                    (app_router sample_render "")))) = Returns tt
  /\ currentView (snd (navigate AppModule AppModule_chain sample_render "dashboard"
                         (snd (navigate AppModule AppModule_chain sample_render "dashboard"
                                 (app_router sample_render ""))))) = Some "dashboard"
  /\ rendered (snd (navigate AppModule AppModule_chain sample_render "dashboard"
                      (snd (navigate AppModule AppModule_chain sample_render "dashboard"
                              (app_router sample_render "")))))
     = (rendered (app_router sample_render "") ++ [dashboard; dashboard])%list.
Proof.
  apply (navigate_registered AppModule AppModule_chain sample_render
           (app_router sample_render "") "dashboard" dashboard).
  vm_compute. reflexivity.
Defined.

Lemma navigate_unregistered_witness :
  navigate AppModule AppModule_chain sample_render "x" (app_router sample_render "")
  = (Returns tt,
     {| currentView := Some "x"; modules := modules (app_router sample_render "");
        app_innerHTML := module_not_found;
        rendered := rendered (app_router sample_render "") |})
  /\ navigate AppModule AppModule_chain sample_render "x"
       (snd (navigate AppModule AppModule_chain sample_render "x"
               (app_router sample_render "")))
     = navigate AppModule AppModule_chain sample_render "x" (app_router sample_render "").
Proof.
  apply (navigate_unregistered AppModule AppModule_chain sample_render
           (app_router sample_render "") "x").
  vm_compute. reflexivity.
Defined.

(** ** Form handlers *)

(** C7.  With an empty title, each of the three handlers ([saveTask],
    [saveItem], [saveNewProject]) shows its alert and returns: the store
    is not called ([calls] is unchanged, so neither [load] nor [save]
    ran), and the cache, local storage, the requests sent and the console
    are as before. *)
Theorem empty_title_is_rejected :
  forall (engine : Engine) (env : Env) (w : World),
    (forall description status : string,
        rejects_input "יש למלא כותרת" w
          (saveTask engine env "" description status w))
    /\ (forall (itemId : option string)
               (type content summary course unitNumber documentType language : string),
           rejects_input "יש למלא כותרת" w
             (saveItem engine env itemId "" type content summary course unitNumber
                documentType language w))
    /\ (forall description : string,
           rejects_input "יש למלא שם פרויקט" w
             (saveNewProject engine env "" description w)).
Proof.
  intros engine env w. unfold rejects_input.
  repeat split; reflexivity.
Qed.

Section HandlerFacts.

Variable engine : Engine.

Lemma load_calls (env : Env) (name : string) (w : World) :
  calls (snd (load engine env name w)) = (calls w ++ [CallLoad name])%list.
Proof.
  unfold load. destruct (truthy_js _); [reflexivity|].
  now destruct (fetch env _) as [|[] [d|]].
Qed.

Lemma write_back_calls (name : string) (aliased : bool) (data : jsval value) (w : World) :
  calls (write_back name aliased data w) = calls w.
Proof.
  unfold write_back. destruct aliased, data; try reflexivity.
  now destruct (own (cache (dm w)) !! name).
Qed.

Lemma save_calls (env : Env) (name : string) (v : value) (w : World) :
  calls (snd (save engine env name v w)) = (calls w ++ [CallSave name v])%list.
Proof. unfold save. now destruct (storage_accepts _ _ _). Qed.

(** Past the title guard the handlers start by calling [load]. *)
Lemma load_edit_save_calls_load
    (env : Env) (name : string) (edit : jsval value -> edited) (toast : string)
    (w : World) :
  exists rest,
    calls (snd (load_edit_save engine env name edit toast w))
    = (calls w ++ CallLoad name :: rest)%list.
Proof.
  unfold load_edit_save.
  pose proof (load_calls env name w) as Hl.
  destruct (load engine env name w) as [[data|e] w1]; cbn in Hl.
  2:{ exists []. exact Hl. }
  destruct (edit data) as [data'|e partial].
  2:{ exists []. cbn. now rewrite write_back_calls. }
  pose proof (save_calls env name data'
                (write_back name (shares_cache engine env name w) (JVal data') w1)) as Hs.
  rewrite write_back_calls, Hl in Hs.
  destruct (save engine env name data' _) as [[b|e] w2]; cbn in Hs.
  2:{ exists [CallSave name data']. cbn. rewrite Hs. now rewrite <- app_assoc. }
  unfold show_list.
  pose proof (load_calls env name (log_ui (Toast toast) w2)) as Hl2.
  destruct (load engine env name (log_ui (Toast toast) w2)) as [[d2|e] w3];
    cbn in Hl2 |- *; rewrite Hl2, Hs;
    exists [CallSave name data'; CallLoad name]; now rewrite <- !app_assoc.
Qed.

(** With a title that is not empty, [saveTask] does call the store. *)
Theorem saveTask_accepted_title_calls_store
    (env : Env) (title description status : string) (w : World) :
  title <> "" ->
  exists rest,
    calls (snd (saveTask engine env title description status w))
    = (calls w ++ CallLoad "tasks.json" :: rest)%list.
Proof.
  intros Ht. unfold saveTask.
  destruct (String.eqb title "") eqn:E.
  - apply String.eqb_eq in E. contradiction.
  - apply load_edit_save_calls_load.
Qed.



End HandlerFacts.

Lemma saveTask_accepted_title_calls_store_witness :
  exists rest,
    calls (snd (saveTask sample_engine offline "Practice scales" "" "pending" initial_world))
    = (calls initial_world ++ CallLoad "tasks.json" :: rest)%list.
Proof.
  apply (saveTask_accepted_title_calls_store sample_engine offline
           "Practice scales" "" "pending" initial_world).
  discriminate.
Defined.

(** * Further properties of the code *)

(** ** Fields of a document *)



(** ** Writing through the store in a handler *)

Section PipelineFacts.

Variable engine : Engine.

Lemma cache_get_own (w : World) (name : string) (doc : value) :
  own (cache (dm w)) !! name = Some doc -> cache_get engine w name = JVal doc.
Proof. intros H. unfold cache_get. now apply js_get_own. Qed.


End PipelineFacts.

Section PipelineCached.

Variable engine : Engine.




End PipelineCached.

(** ** Lists of entries *)

Lemma filter_out_id_cons (id : string) (x : value) (rest : list value) :
  x <> VNull ->
  filter_out_id id (x :: rest)
  = match filter_out_id id rest with
    | Some kept => Some (if has_id id x then kept else x :: kept)
    | None => None
    end.
Proof. intros H. destruct x; try reflexivity. contradiction. Qed.

Lemma find_by_id_cons (id : string) (x : value) (rest : list value) :
  x <> VNull ->
  find_by_id id (x :: rest)
  = if has_id id x then Some (Some 0)
    else match find_by_id id rest with
         | Some (Some n) => Some (Some (S n))
         | other => other
         end.
Proof. intros H. destruct x; try reflexivity. contradiction. Qed.

Lemma filter_out_id_filter (id : string) (xs kept : list value) :
  filter_out_id id xs = Some kept ->
  kept = List.filter (fun x => negb (has_id id x)) xs.
Proof.
  revert kept. induction xs as [|x rest IH]; intros kept H.
  - now injection H as <-.
  - assert (Hx : x <> VNull) by (intros ->; discriminate H).
    rewrite (filter_out_id_cons _ _ _ Hx) in H.
    destruct (filter_out_id id rest) as [k|]; [|discriminate H].
    specialize (IH k eq_refl). subst k. injection H as <-.
    cbn [List.filter]. now destruct (has_id id x).
Qed.


Lemma filter_out_id_absent (id : string) (xs : list value) :
  find_by_id id xs = Some None -> filter_out_id id xs = Some xs.
Proof.
  induction xs as [|x rest IH]; intros H; [reflexivity|].
  assert (Hx : x <> VNull) by (intros ->; discriminate H).
  rewrite (find_by_id_cons _ _ _ Hx) in H.
  rewrite (filter_out_id_cons _ _ _ Hx).
  destruct (has_id id x); [discriminate H|].
  destruct (find_by_id id rest) as [[n|]|]; try discriminate H.
  now rewrite IH.
Qed.

Lemma filter_out_id_length (id : string) (xs kept : list value) :
  filter_out_id id xs = Some kept -> length kept <= length xs.
Proof.
  intros H. rewrite (filter_out_id_filter _ _ _ H). apply List.filter_length_le.
Qed.






Section TaskHandlers.

Variable engine : Engine.






(** [completeTask] with an id no task has: after the [load] nothing else
    happens: no save, no list, no toast and no error. *)
Theorem completeTask_unknown_id
    (env : Env) (taskId : string) (fields : list (string * value))
    (tasks : list value) (w : World) :
  own (cache (dm w)) !! "tasks.json" = Some (VObj fields) ->
  lookup_field "tasks" fields = Some (VArr tasks) ->
  find_by_id taskId tasks = Some None ->
  completeTask engine env taskId w
  = (Returns tt, log_call (CallLoad "tasks.json") w).
Proof.
  intros Hown Htasks Hfind. unfold completeTask, load_edit_save_show.
  pose proof (cache_get_own engine _ _ _ Hown) as Hget.
  rewrite load_hit by now rewrite Hget.
  rewrite Hget. unfold complete_task. now rewrite Htasks, Hfind.
Qed.

End TaskHandlers.

(** ** ThemeManager *)

Section ThemeFacts.

Variable env : Env.
Hypothesis storage_has_room : forall theme, storage_accepts env "btk-theme" theme = true.

Lemma applyTheme_accepted (theme : string) (tm : ThemeManager) (page : ThemePage) :
  applyTheme env theme tm page
  = (Returns tt,
     {| themeToggle := themeToggle tm; themeIcon := themeIcon tm;
        currentTheme := theme |},
     {| theme_storage := <["btk-theme" := theme]> (theme_storage page);
        dark_theme := String.eqb theme "dark";
        icon_text := if themeIcon tm
                     then Some (if String.eqb theme "dark" then "☀️" else "🌙")
                     else icon_text page;
        has_toggle := has_toggle page;
        click_listeners := click_listeners page |}).
Proof. unfold applyTheme. now rewrite storage_has_room. Qed.

(** After any [toggleTheme] the manager, the page and local storage agree
    on a theme that is ["light"] or ["dark"]: the body carries
    [dark-theme] exactly for ["dark"], and the stored theme is the current
    one. *)
Theorem toggleTheme_agrees (tm : ThemeManager) (page : ThemePage) :
  outcome (toggleTheme env tm page) = Returns tt
  /\ (currentTheme (manager (toggleTheme env tm page)) = "light"
      \/ currentTheme (manager (toggleTheme env tm page)) = "dark")
  /\ dark_theme (page_of (toggleTheme env tm page))
     = String.eqb (currentTheme (manager (toggleTheme env tm page))) "dark"
  /\ theme_storage (page_of (toggleTheme env tm page)) !! "btk-theme"
     = Some (currentTheme (manager (toggleTheme env tm page)))
  /\ currentTheme (new_ThemeManager (page_of (toggleTheme env tm page)))
     = currentTheme (manager (toggleTheme env tm page)).
Proof.
  unfold toggleTheme. rewrite applyTheme_accepted.
  unfold outcome, manager, page_of, new_ThemeManager. cbn.
  rewrite lookup_insert_eq.
  destruct (String.eqb (currentTheme tm) "light"); cbn; auto 6.
Qed.


(** A stored theme that is neither ["light"], ["dark"] nor empty is kept
    as the current theme by the constructor and shown as the light one by
    [init]; the first [toggleTheme] then moves to ["light"], which changes
    neither the body class nor the icon. *)
Theorem unknown_theme_first_toggle (stored : string) (page : ThemePage) :
  theme_storage page !! "btk-theme" = Some stored ->
  stored <> "" -> stored <> "light" -> stored <> "dark" ->
  currentTheme (new_ThemeManager page) = stored
  /\ dark_theme (page_of (init env (new_ThemeManager page) page)) = false
  /\ currentTheme
       (manager (toggleTheme env (manager (init env (new_ThemeManager page) page))
                   (page_of (init env (new_ThemeManager page) page))))
     = "light"
  /\ dark_theme
       (page_of (toggleTheme env (manager (init env (new_ThemeManager page) page))
                   (page_of (init env (new_ThemeManager page) page))))
     = dark_theme (page_of (init env (new_ThemeManager page) page))
  /\ icon_text
       (page_of (toggleTheme env (manager (init env (new_ThemeManager page) page))
                   (page_of (init env (new_ThemeManager page) page))))
     = icon_text (page_of (init env (new_ThemeManager page) page)).
Proof.
  intros Hs H0 Hl Hd.
  apply String.eqb_neq in H0, Hl, Hd.
  assert (Hnew : currentTheme (new_ThemeManager page) = stored)
    by (unfold new_ThemeManager; cbn; now rewrite Hs, H0).
  split; [exact Hnew|].
  unfold init, toggleTheme. rewrite !applyTheme_accepted.
  cbn [currentTheme themeToggle themeIcon]. rewrite Hnew.
  unfold manager, page_of.
  destruct (has_toggle page), (icon_text page);
    cbn; rewrite ?Hl, ?Hd; cbn; auto.
Qed.

(** What [applyTheme] stores is what the next [new ThemeManager()] starts
    from, except for the empty theme, which it reads as ["light"]. *)
Theorem applyTheme_then_reload (theme : string) (tm : ThemeManager) (page : ThemePage) :
  currentTheme (new_ThemeManager (page_of (applyTheme env theme tm page)))
  = (if String.eqb theme "" then "light" else theme).
Proof.
  rewrite applyTheme_accepted. unfold page_of, new_ThemeManager. cbn.
  now rewrite lookup_insert_eq.
Qed.

End ThemeFacts.

(** When local storage refuses the write, [applyTheme] throws after it
    has switched the page and the current theme: storage keeps the old
    theme, so the next [new ThemeManager()] starts from that one. *)
Theorem applyTheme_storage_full
    (env : Env) (theme : string) (tm : ThemeManager) (page : ThemePage) :
  storage_accepts env "btk-theme" theme = false ->
  outcome (applyTheme env theme tm page) = Throws QuotaExceededError
  /\ currentTheme (manager (applyTheme env theme tm page)) = theme
  /\ dark_theme (page_of (applyTheme env theme tm page)) = String.eqb theme "dark"
  /\ theme_storage (page_of (applyTheme env theme tm page)) = theme_storage page
  /\ new_ThemeManager (page_of (applyTheme env theme tm page)) = new_ThemeManager page.
Proof.
  intros H. unfold applyTheme. rewrite H.
  unfold outcome, manager, page_of, new_ThemeManager. cbn. auto.
Qed.

(** ** Identifiers and time stamps *)

Lemma before_lacks (c : ascii) (s : string) : lacks c (before c s) = true.
Proof.
  induction s as [|a rest IH]; [reflexivity|]. cbn.
  destruct (Ascii.eqb a c) eqn:E; [reflexivity|]. cbn. now rewrite E.
Qed.

Lemma append_nil (t : string) : "" +:+ t = t.
Proof. reflexivity. Qed.

Lemma append_cons (a : ascii) (s t : string) : String a s +:+ t = String a (s +:+ t).
Proof. reflexivity. Qed.

Lemma before_append (c : ascii) (s rest : string) :
  lacks c s = true -> before c (s +:+ String c rest) = s.
Proof.
  induction s as [|a s' IH]; intros H.
  - rewrite append_nil. cbn. now rewrite Ascii.eqb_refl.
  - rewrite append_cons. cbn in H |- *.
    destruct (Ascii.eqb a c); [discriminate H|]. now rewrite IH.
Qed.

Lemma replace_first_append (c d : ascii) (s rest : string) :
  lacks c s = true ->
  replace_first c d (s +:+ String c rest) = s +:+ String d rest.
Proof.
  induction s as [|a s' IH]; intros H.
  - rewrite !append_nil. cbn. now rewrite Ascii.eqb_refl.
  - rewrite !append_cons. cbn in H |- *.
    destruct (Ascii.eqb a c); [discriminate H|]. now rewrite IH.
Qed.

Lemma lacks_append (c : ascii) (s t : string) :
  lacks c (s +:+ t) = lacks c s && lacks c t.
Proof.
  induction s as [|a s' IH]; [reflexivity|].
  rewrite append_cons. cbn. rewrite IH. now rewrite andb_assoc.
Qed.

Lemma append_assoc (s t u : string) : (s +:+ t) +:+ u = s +:+ (t +:+ u).
Proof.
  induction s as [|a s' IH]; [reflexivity|].
  rewrite !append_cons. now rewrite IH.
Qed.

Lemma length_append (s t : string) :
  String.length (s +:+ t) = String.length s + String.length t.
Proof.
  induction s as [|a s' IH]; [reflexivity|].
  rewrite append_cons. cbn. now rewrite IH.
Qed.

(** On an ISO stamp [<date>T<time>.<rest>] (no [T] or [.] in the date, no
    [.] in the time), [formatDate] is the date and [formatDateTime] is the
    date, a space and the time. *)
Theorem formatDateTime_of_iso (env : Env) (date time rest : string) :
  Date_toISOString env = date +:+ "T" +:+ time +:+ "." +:+ rest ->
  lacks "T" date = true -> lacks "." date = true -> lacks "." time = true ->
  formatDate env = date
  /\ formatDateTime env = date +:+ " " +:+ time.
Proof.
  intros H HT Hd Ht. unfold formatDate, formatDateTime. rewrite H. split.
  - now apply (before_append "T").
  - change ("T" +:+ time +:+ "." +:+ rest)
      with (String "T" (time +:+ "." +:+ rest)).
    rewrite (replace_first_append "T" " " date _ HT).
    change (String " " (time +:+ "." +:+ rest))
      with (" " +:+ (time +:+ String "." rest)).
    rewrite <- !append_assoc.
    apply (before_append ".").
    rewrite !lacks_append, Hd, Ht. reflexivity.
Qed.

(** An identifier starts with the time stamp, which is followed by [_] and
    at most nine characters; so two identifiers made at different
    milliseconds differ. *)
Theorem generateId_keeps_timestamp (env1 env2 : Env) :
  lacks "_" (Date_now env1) = true ->
  lacks "_" (Date_now env2) = true ->
  before "_" (generateId env1) = Date_now env1
  /\ String.length (generateId env1) <= String.length (Date_now env1) + 10
  /\ (generateId env1 = generateId env2 -> Date_now env1 = Date_now env2).
Proof.
  intros H1 H2.
  assert (B : forall env, lacks "_" (Date_now env) = true ->
                          before "_" (generateId env) = Date_now env).
  { intros env H. unfold generateId.
    change ("_" +:+ substring 2 9 (Math_random_toString36 env))
      with (String "_" (substring 2 9 (Math_random_toString36 env))).
    now apply before_append. }
  split; [now apply B|]. split.
  - unfold generateId. rewrite !length_append.
    assert (L : forall n m s, String.length (substring n m s) <= m).
    { intros n m s. revert n m. induction s as [|a s' IH]; intros [|n] [|m]; cbn;
        try lia.
      - specialize (IH 0 m). lia.
      - apply IH.
      - apply IH. }
    specialize (L 2 9 (Math_random_toString36 env1)). cbn [String.length]. lia.
  - intros E. rewrite <- (B env1 H1), <- (B env2 H2). now rewrite E.
Qed.

(** ** More on the DataManager *)

Lemma js_get_set_other {A : Type} (kind_of_A : A -> kind)
    (inherited : A -> string -> prop A) (o : jsobj A) (k other : string) (v : A) :
  ordinary inherited o k = true -> other <> k ->
  js_get inherited (js_set kind_of_A inherited o k v) other = js_get inherited o other.
Proof.
  intros Hk Hne. rewrite js_set_ordinary by exact Hk.
  unfold js_get, find, prototype_value. cbn [own prototype].
  now rewrite lookup_insert_ne by congruence.
Qed.

Lemma storage_key_inj (name other : string) :
  "btk_" +:+ other = "btk_" +:+ name -> other = name.
Proof. intros H. now injection H. Qed.

Lemma storage_key_not_theme (name : string) : "btk_" +:+ name <> "btk-theme".
Proof. intros H. discriminate H. Qed.

Section StoreFrames.

Variable engine : Engine.

(** A [load] that misses and whose retrieval succeeds returns exactly the
    fetched document, whatever it is (also [null] or another falsy
    value), after one request; under an ordinary name the cache then reads
    that document; local storage and the console are untouched. *)
Theorem load_returns_fetched_document
    (env : Env) (name : string) (data : value) (w : World) :
  truthy_js (cache_get engine w name) = false ->
  fetch env (baseUrl (dm w) +:+ name) = Response true (Some data) ->
  ordinary (inherited_from engine) (cache (dm w)) name = true ->
  fst (load engine env name w) = Returns (JVal data)
  /\ cache_get engine (snd (load engine env name w)) name = JVal data
  /\ requests (snd (load engine env name w))
     = (requests w ++ [baseUrl (dm w) +:+ name])%list
  /\ localStorage (snd (load engine env name w)) = localStorage w
  /\ console (snd (load engine env name w)) = console w.
Proof.
  intros Hmiss Hf Hk. rewrite (load_miss_fetched _ _ _ _ _ Hmiss Hf).
  cbn. repeat split. unfold cache_get, cache_set. cbn.
  now apply js_get_set_ordinary.
Qed.

(** When local storage refuses the write, [save] rejects with
    [QuotaExceededError] after the cache has taken the value: the cache
    reads the new document while local storage still holds what it held,
    and nothing is logged. *)
Theorem save_storage_full (env : Env) (name : string) (v : value) (w : World) :
  storage_accepts env ("btk_" +:+ name) (JSON_stringify engine v) = false ->
  ordinary (inherited_from engine) (cache (dm w)) name = true ->
  fst (save engine env name v w) = Throws QuotaExceededError
  /\ cache_get engine (snd (save engine env name v w)) name = JVal v
  /\ localStorage (snd (save engine env name v w)) = localStorage w
  /\ console (snd (save engine env name v w)) = console w.
Proof.
  intros Hs Hk. unfold save. rewrite Hs. cbn. repeat split.
  unfold cache_get, cache_set. cbn. now apply js_get_set_ordinary.
Qed.

(** [save] and [load] under an ordinary name leave every other name as it
    was: what the cache reads for it and the text stored for it; [save]
    never touches the stored theme and [load] never writes local
    storage. *)
Theorem store_touches_one_name
    (env : Env) (name other : string) (v : value) (w : World) :
  ordinary (inherited_from engine) (cache (dm w)) name = true ->
  other <> name ->
  cache_get engine (snd (save engine env name v w)) other = cache_get engine w other
  /\ localStorage (snd (save engine env name v w)) !! ("btk_" +:+ other)
     = localStorage w !! ("btk_" +:+ other)
  /\ localStorage (snd (save engine env name v w)) !! "btk-theme"
     = localStorage w !! "btk-theme"
  /\ cache_get engine (snd (load engine env name w)) other = cache_get engine w other
  /\ localStorage (snd (load engine env name w)) = localStorage w.
Proof.
  intros Hk Hne.
  assert (Hkey : "btk_" +:+ name <> "btk_" +:+ other)
    by (intros E; apply Hne; symmetry in E; now apply storage_key_inj).
  split.
  { unfold cache_get. rewrite save_cache. now apply js_get_set_other. }
  split.
  { unfold save. destruct (storage_accepts _ _ _); cbn; [|reflexivity].
    now rewrite lookup_insert_ne. }
  split.
  { unfold save. destruct (storage_accepts _ _ _); cbn; [|reflexivity].
    rewrite lookup_insert_ne; [reflexivity|apply storage_key_not_theme]. }
  unfold load.
  change (cache_get engine (log_call (CallLoad name) w) name)
    with (cache_get engine w name).
  destruct (truthy_js (cache_get engine w name)); [now cbn|].
  destruct (fetch env _) as [|[] [d|]]; cbn; try now split.
  split; [|reflexivity].
  unfold cache_get, cache_set. cbn. now apply js_get_set_other.
Qed.

(** Two saves under one ordinary name leave the cache and local storage
    exactly as the second save alone would: the last writer wins and
    nothing of the first value remains. *)
Theorem save_twice_last_wins
    (env1 env2 : Env) (name : string) (v1 v2 : value) (w : World) :
  ordinary (inherited_from engine) (cache (dm w)) name = true ->
  storage_accepts env2 ("btk_" +:+ name) (JSON_stringify engine v2) = true ->
  cache (dm (snd (save engine env2 name v2 (snd (save engine env1 name v1 w)))))
  = cache (dm (snd (save engine env2 name v2 w)))
  /\ localStorage (snd (save engine env2 name v2 (snd (save engine env1 name v1 w))))
     = localStorage (snd (save engine env2 name v2 w)).
Proof.
  intros Hk Hs. split.
  - rewrite !save_cache.
    rewrite (js_set_ordinary _ _ (cache (dm w)) name v1 Hk).
    rewrite !js_set_ordinary;
      try exact Hk;
      try (apply (ordinary_own _ _ _ v1); cbn; apply lookup_insert_eq).
    cbn. now rewrite insert_insert_eq.
  - unfold save at 1 3. rewrite Hs. cbn.
    unfold save. destruct (storage_accepts env1 _ _); cbn; [|reflexivity].
    now rewrite insert_insert_eq.
Qed.

End StoreFrames.

(** ** More on the Router *)

Section RouterFacts.

Variable M : Type.
Variable module_chain : M -> string -> prop M.
Variable render : M -> string -> string.

Lemma navigate_modules (name : string) (r : Router M) :
  modules (snd (navigate M module_chain render name r)) = modules r.
Proof.
  unfold navigate. cbn. now destruct (js_get module_chain (modules r) name).
Qed.

(** Registering twice under one ordinary name keeps the second module
    only: [navigate] renders it and not the first; the registration changes
    neither the current view nor the page. *)
Theorem registerModule_last_wins (r : Router M) (name : string) (m1 m2 : M) :
  ordinary module_chain (modules r) name = true ->
  registered M module_chain
    (registerModule M module_chain name m2 (registerModule M module_chain name m1 r))
    name m2
  /\ rendered (snd (navigate M module_chain render name
                      (registerModule M module_chain name m2
                         (registerModule M module_chain name m1 r))))
     = (rendered r ++ [m2])%list
  /\ currentView (registerModule M module_chain name m2
                    (registerModule M module_chain name m1 r)) = currentView r
  /\ app_innerHTML (registerModule M module_chain name m2
                      (registerModule M module_chain name m1 r)) = app_innerHTML r.
Proof.
  intros Hk.
  assert (Hk1 : ordinary module_chain
                  (modules (registerModule M module_chain name m1 r)) name = true).
  { unfold registerModule. cbn. rewrite js_set_ordinary by exact Hk.
    apply (ordinary_own _ _ _ m1). cbn. apply lookup_insert_eq. }
  pose proof (registerModule_registered M module_chain _ name m2 Hk1) as Hreg.
  split; [exact Hreg|]. split; [|split; reflexivity].
  unfold registered in Hreg. unfold navigate. cbn [modules]. rewrite Hreg.
  reflexivity.
Qed.

(** A run of navigations through registered names renders exactly the
    modules registered under them, in order; the registry is as before and
    the current view is the last name. *)
Theorem navigate_all_renders_in_order
    (names : list string) (mods : list M) (r : Router M) :
  Forall2 (registered M module_chain r) names mods ->
  rendered (navigate_all module_chain render names r) = (rendered r ++ mods)%list
  /\ modules (navigate_all module_chain render names r) = modules r
  /\ currentView (navigate_all module_chain render names r)
     = match last names with
       | Some name => Some name
       | None => currentView r
       end.
Proof.
  intros H. revert mods r H.
  induction names as [|name names IH]; intros mods r H.
  - apply Forall2_nil_inv_l in H. subst mods. cbn. now rewrite app_nil_r.
  - apply Forall2_cons_inv_l in H as (m & mods' & Hreg & Hrest & ->).
    assert (Hstep : navigate M module_chain render name r
                    = (Returns tt,
                       {| currentView := Some name; modules := modules r;
                          app_innerHTML := render m (app_innerHTML r);
                          rendered := rendered r ++ [m] |})).
    { unfold registered in Hreg. unfold navigate. cbn. now rewrite Hreg. }
    cbn [navigate_all fold_left]. rewrite Hstep. cbn [snd].
    set (r1 := {| currentView := Some name; modules := modules r;
                  app_innerHTML := render m (app_innerHTML r);
                  rendered := rendered r ++ [m] |}).
    assert (Hrest1 : Forall2 (registered M module_chain r1) names mods').
    { eapply Forall2_impl; [exact Hrest|]. intros n' m' Hr. exact Hr. }
    destruct (IH mods' r1 Hrest1) as (H1 & H2 & H3).
    unfold navigate_all in *. rewrite H1, H2, H3. cbn.
    split; [now rewrite <- app_assoc|]. split; [reflexivity|].
    destruct names as [|n' names']; [reflexivity|].
    cbn [last]. now destruct (last (n' :: names')) eqn:E;
      [|apply last_None in E].
Qed.

End RouterFacts.

(** ** Labels *)

Lemma label_of_absent (labels : list (string * string)) (key : string) :
  key ∉ labels.*1 ->
  Object_prototype (A:=string) key = Absent ->
  label_of labels key = JVal key.
Proof.
  intros Hn Ha. unfold label_of, js_get, find, object_literal. cbn [own prototype].
  rewrite (proj1 (not_elem_of_list_to_map labels key) Hn). now rewrite Ha.
Qed.

(** [getStatusLabel] and [getTypeLabel] return the label of a key of their
    table and return every other key unchanged, provided it is not a
    member of [Object.prototype]; for such a member they return the
    inherited function. *)
Theorem labels_fall_back_to_key :
  (forall key label, (key, label) ∈ status_labels -> getStatusLabel key = JVal label)
  /\ (forall key label, (key, label) ∈ type_labels -> getTypeLabel key = JVal label)
  /\ (forall key, Object_prototype (A:=string) key = Absent ->
        (key ∉ status_labels.*1 -> getStatusLabel key = JVal key)
        /\ (key ∉ type_labels.*1 -> getTypeLabel key = JVal key))
  /\ getStatusLabel "constructor" = JBuiltin "constructor"
  /\ getTypeLabel "toString" = JBuiltin "toString".
Proof.
  split.
  { intros key label H. unfold status_labels in H.
    repeat (apply elem_of_cons in H as [H|H];
            [injection H as -> ->; vm_compute; reflexivity|]).
    now apply elem_of_nil in H. }
  split.
  { intros key label H. unfold type_labels in H.
    repeat (apply elem_of_cons in H as [H|H];
            [injection H as -> ->; vm_compute; reflexivity|]).
    now apply elem_of_nil in H. }
  split.
  { intros key Ha. split; intros Hn; now apply label_of_absent. }
  split; vm_compute; reflexivity.
Qed.

(** ** Handlers that add or edit an entry *)

Section EntryHandlers.

Variable engine : Engine.





End EntryHandlers.

(** ** Closed instances of the results above *)





Lemma completeTask_unknown_id_witness :
  completeTask sample_engine offline "t9" (cached "tasks.json" sample_tasks)
  = (Returns tt, log_call (CallLoad "tasks.json") (cached "tasks.json" sample_tasks)).
Proof.
  apply (completeTask_unknown_id sample_engine offline "t9" _ _
           (cached "tasks.json" sample_tasks) eq_refl eq_refl eq_refl).
Defined.

Lemma toggleTheme_agrees_witness :
  outcome (toggleTheme offline (new_ThemeManager (page_with_theme None))
             (page_with_theme None)) = Returns tt
  /\ currentTheme (manager (toggleTheme offline (new_ThemeManager (page_with_theme None))
                              (page_with_theme None))) = "dark"
  /\ dark_theme (page_of (toggleTheme offline (new_ThemeManager (page_with_theme None))
                            (page_with_theme None))) = true.
Proof.
  destruct (toggleTheme_agrees offline (fun _ => eq_refl)
              (new_ThemeManager (page_with_theme None)) (page_with_theme None))
    as (H1 & _ & H3 & _).
  split; [exact H1|]. split; [reflexivity|exact H3].
Defined.


Lemma unknown_theme_first_toggle_witness :
  currentTheme (new_ThemeManager (page_with_theme (Some "sepia"))) = "sepia"
  /\ dark_theme (page_of (init offline (new_ThemeManager (page_with_theme (Some "sepia")))
                            (page_with_theme (Some "sepia")))) = false.
Proof.
  destruct (unknown_theme_first_toggle offline (fun _ => eq_refl) "sepia"
              (page_with_theme (Some "sepia")) eq_refl
              ltac:(discriminate) ltac:(discriminate) ltac:(discriminate))
    as (H1 & H2 & _).
  split; assumption.
Defined.

Lemma applyTheme_then_reload_witness :
  currentTheme (new_ThemeManager
                  (page_of (applyTheme offline "" (new_ThemeManager (page_with_theme None))
                              (page_with_theme None))))
  = "light".
Proof.
  apply (applyTheme_then_reload offline (fun _ => eq_refl) ""
           (new_ThemeManager (page_with_theme None)) (page_with_theme None)).
Defined.

Lemma applyTheme_storage_full_witness :
  outcome (applyTheme storage_full "dark" (new_ThemeManager (page_with_theme None))
             (page_with_theme None)) = Throws QuotaExceededError
  /\ currentTheme (manager (applyTheme storage_full "dark"
                              (new_ThemeManager (page_with_theme None))
                              (page_with_theme None))) = "dark"
  /\ currentTheme (new_ThemeManager
                     (page_of (applyTheme storage_full "dark"
                                 (new_ThemeManager (page_with_theme None))
                                 (page_with_theme None)))) = "light".
Proof.
  destruct (applyTheme_storage_full storage_full "dark"
              (new_ThemeManager (page_with_theme None)) (page_with_theme None) eq_refl)
    as (H1 & H2 & _ & _ & H5).
  split; [exact H1|]. split; [exact H2|]. now rewrite H5.
Defined.

Lemma formatDateTime_of_iso_witness :
  formatDate offline = "2024-01-02"
  /\ formatDateTime offline = "2024-01-02 03:04:05".
Proof.
  apply (formatDateTime_of_iso offline "2024-01-02" "03:04:05" "678Z");
    reflexivity.
Defined.

Lemma generateId_keeps_timestamp_witness :
  before "_" (generateId offline) = "1700000000000"
  /\ String.length (generateId offline) <= 13 + 10
  /\ (generateId offline = generateId storage_full
      -> Date_now offline = Date_now storage_full).
Proof.
  apply (generateId_keeps_timestamp offline storage_full); reflexivity.
Defined.

Lemma load_returns_fetched_document_witness :
  fst (load sample_engine (serving VNull) "tasks.json" initial_world)
  = Returns (JVal VNull)
  /\ cache_get sample_engine
       (snd (load sample_engine (serving VNull) "tasks.json" initial_world)) "tasks.json"
     = JVal VNull
  /\ requests (snd (load sample_engine (serving VNull) "tasks.json" initial_world))
     = ["data/tasks.json"].
Proof.
  destruct (load_returns_fetched_document sample_engine (serving VNull) "tasks.json"
              VNull initial_world eq_refl eq_refl eq_refl)
    as (H1 & H2 & H3 & _).
  exact (conj H1 (conj H2 H3)).
Defined.

Lemma save_storage_full_witness :
  fst (save sample_engine storage_full "tasks.json" sample_tasks initial_world)
  = Throws QuotaExceededError
  /\ cache_get sample_engine
       (snd (save sample_engine storage_full "tasks.json" sample_tasks initial_world))
       "tasks.json"
     = JVal sample_tasks
  /\ localStorage (snd (save sample_engine storage_full "tasks.json" sample_tasks
                          initial_world))
     = localStorage initial_world.
Proof.
  destruct (save_storage_full sample_engine storage_full "tasks.json" sample_tasks
              initial_world eq_refl eq_refl)
    as (H1 & H2 & H3 & _).
  exact (conj H1 (conj H2 H3)).
Defined.

Lemma store_touches_one_name_witness :
  cache_get sample_engine
    (snd (save sample_engine offline "knowledge.json" sample_knowledge
            (cached "tasks.json" sample_tasks))) "tasks.json"
  = cache_get sample_engine (cached "tasks.json" sample_tasks) "tasks.json"
  /\ localStorage (snd (load sample_engine offline "knowledge.json"
                          (cached "tasks.json" sample_tasks)))
     = localStorage (cached "tasks.json" sample_tasks).
Proof.
  destruct (store_touches_one_name sample_engine offline "knowledge.json" "tasks.json"
              sample_knowledge (cached "tasks.json" sample_tasks)
              eq_refl ltac:(discriminate))
    as (H1 & _ & _ & _ & H5).
  exact (conj H1 H5).
Defined.

Lemma save_twice_last_wins_witness :
  cache (dm (snd (save sample_engine offline "tasks.json" sample_tasks
                    (snd (save sample_engine storage_full "tasks.json" (VObj [])
                            initial_world)))))
  = cache (dm (snd (save sample_engine offline "tasks.json" sample_tasks initial_world)))
  /\ localStorage (snd (save sample_engine offline "tasks.json" sample_tasks
                          (snd (save sample_engine storage_full "tasks.json" (VObj [])
                                  initial_world))))
     = localStorage (snd (save sample_engine offline "tasks.json" sample_tasks
                            initial_world)).
Proof.
  apply (save_twice_last_wins sample_engine storage_full offline "tasks.json"
           (VObj []) sample_tasks initial_world); reflexivity.
Defined.

Lemma registerModule_last_wins_witness :
  rendered (snd (navigate AppModule AppModule_chain sample_render "docs"
                   (registerModule AppModule AppModule_chain "docs" management
                      (registerModule AppModule AppModule_chain "docs" docLibrary
                         (new_Router "")))))
  = [management].
Proof.
  destruct (registerModule_last_wins AppModule AppModule_chain sample_render
              (new_Router "") "docs" docLibrary management eq_refl)
    as (_ & H & _).
  exact H.
Defined.

Lemma navigate_all_renders_in_order_witness :
  rendered (navigate_all AppModule_chain sample_render
              ["dashboard"; "docs"; "dashboard"] (app_router sample_render ""))
  = [dashboard; docLibrary; dashboard]
  /\ currentView (navigate_all AppModule_chain sample_render
                    ["dashboard"; "docs"; "dashboard"] (app_router sample_render ""))
     = Some "dashboard".
Proof.
  destruct (navigate_all_renders_in_order AppModule AppModule_chain sample_render
              ["dashboard"; "docs"; "dashboard"] [dashboard; docLibrary; dashboard]
              (app_router sample_render ""))
    as (H1 & _ & H3).
  - repeat constructor; vm_compute; reflexivity.
  - exact (conj H1 H3).
Defined.


